(** * The Dreo Cloud WebSocket client ([cloud/ws_client.py])

    A shallow embedding of [DreoWebSocketClient]: the session object, its
    public API ([connect], [disconnect], [connected]), the URL builder and
    the four forwarding handlers, followed by the properties of the
    connect/disconnect lifecycle and of callback forwarding.

    Python statements become computations in a state-and-exception monad
    over a [World]: the attributes of [self], the state of everything
    outside the client, and the sequence of calls the client has made to
    its collaborators. *)

From Stdlib Require Import Ascii QArith DecimalString.
From stdpp Require Import base strings list gmap.

(** ** Python exceptions *)

(** The part of the built-in exception hierarchy the client can meet,
    closed under single-inheritance subclassing with [UserClass]. *)
Inductive ExcClass : Type :=
| BaseException
| Exception
| RuntimeError
| NotImplementedError
| RecursionError
| OSError
| ConnectionError
| TimeoutError
| LookupError
| KeyError
| IndexError
| ValueError
| TypeError
| ImportError
| KeyboardInterrupt
| SystemExit
| UserClass (name : string) (base : ExcClass).

Fixpoint class_eqb (c d : ExcClass) : bool :=
  match c, d with
  | BaseException, BaseException => true
  | Exception, Exception => true
  | RuntimeError, RuntimeError => true
  | NotImplementedError, NotImplementedError => true
  | RecursionError, RecursionError => true
  | OSError, OSError => true
  | ConnectionError, ConnectionError => true
  | TimeoutError, TimeoutError => true
  | LookupError, LookupError => true
  | KeyError, KeyError => true
  | IndexError, IndexError => true
  | ValueError, ValueError => true
  | TypeError, TypeError => true
  | ImportError, ImportError => true
  | KeyboardInterrupt, KeyboardInterrupt => true
  | SystemExit, SystemExit => true
  | UserClass n b, UserClass n' b' => String.eqb n n' && class_eqb b b'
  | _, _ => false
  end.

(** The class itself followed by its ancestors, nearest first (its MRO
    without [object]). *)
Fixpoint mro (c : ExcClass) : list ExcClass :=
  match c with
  | BaseException => [BaseException]
  | Exception => [Exception; BaseException]
  | RuntimeError => [RuntimeError; Exception; BaseException]
  | NotImplementedError =>
      [NotImplementedError; RuntimeError; Exception; BaseException]
  | RecursionError => [RecursionError; RuntimeError; Exception; BaseException]
  | OSError => [OSError; Exception; BaseException]
  | ConnectionError => [ConnectionError; OSError; Exception; BaseException]
  | TimeoutError => [TimeoutError; OSError; Exception; BaseException]
  | LookupError => [LookupError; Exception; BaseException]
  | KeyError => [KeyError; LookupError; Exception; BaseException]
  | IndexError => [IndexError; LookupError; Exception; BaseException]
  | ValueError => [ValueError; Exception; BaseException]
  | TypeError => [TypeError; Exception; BaseException]
  | ImportError => [ImportError; Exception; BaseException]
  | KeyboardInterrupt => [KeyboardInterrupt; BaseException]
  | SystemExit => [SystemExit; BaseException]
  | UserClass n b => UserClass n b :: mro b
  end.

Definition issubclass (c d : ExcClass) : bool :=
  existsb (class_eqb d) (mro c).

Record Exn : Type := { exc_class : ExcClass; exc_msg : string }.

Definition isinstance (e : Exn) (c : ExcClass) : bool :=
  issubclass (exc_class e) c.

(** The clause [except (RuntimeError, OSError)] used by every handler of
    the client. *)
Definition except_RuntimeError_OSError (e : Exn) : bool :=
  isinstance e RuntimeError || isinstance e OSError.

(** ** Values, handles and the record of collaborator calls *)

Inductive PyVal : Type :=
| VNone
| VStr (s : string)
| VInt (z : Z)
| VExn (e : Exn).

Definition of_opt_int (o : option Z) : PyVal :=
  match o with Some z => VInt z | None => VNone end.

Definition of_opt_str (o : option string) : PyVal :=
  match o with Some s => VStr s | None => VNone end.

(** A [websocket.WebSocketApp] object and a [threading.Thread] object,
    by identity. *)
Definition WsHandle : Type := nat.
Definition ThreadHandle : Type := nat.

(** [logger or logging.getLogger(__name__)]. *)
Inductive Logger : Type :=
| InjectedLogger (id : nat)
| ModuleLogger.

Inductive LogLevel : Type := DEBUG | WARNING.

Inductive CallbackKind : Type := OnMessage | OnError | OnClose | OnOpen.

(** One entry per call that leaves the client, with its arguments. *)
Inductive Call : Type :=
| CallCleanToken (token : string)
| CallTimestamp
| CallParseToken (token : string)
| CallImportModule (name : string)
| CallWebSocketApp (url : string) (header : list string)
| CallThread (target : WsHandle) (kwargs : list (string * PyVal)) (daemon : bool)
| CallStart (t : ThreadHandle)
| CallClose (ws : WsHandle)
| CallIsAlive (t : ThreadHandle)
| CallJoin (t : ThreadHandle) (timeout : Q)
| CallLog (lg : Logger) (lvl : LogLevel) (fmt : string) (args : list PyVal)
| CallUser (k : CallbackKind) (args : list PyVal).

Definition is_user_call (c : Call) : bool :=
  match c with CallUser _ _ => true | _ => false end.

Definition is_close_or_join (c : Call) : bool :=
  match c with CallClose _ | CallJoin _ _ => true | _ => false end.

Definition is_warning (c : Call) : bool :=
  match c with CallLog _ WARNING _ _ => true | _ => false end.

Inductive Result (A : Type) : Type :=
| Ok (a : A)
| Raise (e : Exn).
Arguments Ok {A} a.
Arguments Raise {A} e.

Definition returns {A : Type} (r : Result A) : bool :=
  match r with Ok _ => true | Raise _ => false end.

(** ** The constants of [cloud/const.py] the client imports

    [const.py] is not part of the sources at hand: the four names are
    taken as they are used, [WS_BASE_URL] and the [ENDPOINTS] entries as
    [str.format] templates. *)
Record Const : Type := {
  WS_BASE_URL : string;
  ENDPOINTS : gmap string string;
  USER_AGENT : string;
  EU_BASE_URL : string
}.

Section Client.

(** The state of everything outside the client: the clock, the network,
    the threads, the state of the user's program. *)
Context {Ext : Type}.

(** A user callback is arbitrary Python code. It acts on the outside
    state, and may read the public [connected] property of the client: it
    is handed the value the property has when the call is made.  It is
    taken not to call the methods of the client nor to write its
    attributes.  [None] is a normal return, [Some e] is [raise e]. *)
Definition Callback : Type := list PyVal -> bool -> Ext -> option Exn * Ext.

Definition Kwargs : Type := list (string * PyVal).

(** The collaborators: [Helpers] of [cloud/helpers.py], [str.format],
    [importlib], the [websocket] package and [threading].  Each call may
    return or raise, and may change the outside state. *)
Record Collaborators : Type := {
  Helpers_clean_token : string -> Ext -> Result string * Ext;
  Helpers_timestamp : Ext -> Result string * Ext;
  Helpers_parse_token_and_get_endpoint : string -> Ext -> Result string * Ext;
  str_format : string -> list string -> Result string;
  importlib_import_module : string -> Ext -> Result unit * Ext;
  WebSocketApp : string -> list string -> Ext -> Result WsHandle * Ext;
  WebSocketApp_close : WsHandle -> Ext -> Result unit * Ext;
  Thread : WsHandle -> Kwargs -> bool -> Ext -> Result ThreadHandle * Ext;
  Thread_start : ThreadHandle -> Ext -> Result unit * Ext;
  Thread_is_alive : ThreadHandle -> Ext -> Result bool * Ext;
  Thread_join : ThreadHandle -> Q -> Ext -> Result unit * Ext
}.

Context (K : Const) (C : Collaborators).

(** The attributes of a [DreoWebSocketClient].  A callback attribute is
    [None] or a callable, and a callable is true in [if self._user_on_*]. *)
Record Session : Type := {
  access_token : string;
  _ws : option WsHandle;
  _thread : option ThreadHandle;
  _logger : Logger;
  _connected : bool;
  _user_on_message : option Callback;
  _user_on_error : option Callback;
  _user_on_close : option Callback;
  _user_on_open : option Callback
}.

Definition set_ws (v : option WsHandle) (s : Session) : Session :=
  {| access_token := access_token s; _ws := v; _thread := _thread s;
     _logger := _logger s; _connected := _connected s;
     _user_on_message := _user_on_message s;
     _user_on_error := _user_on_error s;
     _user_on_close := _user_on_close s;
     _user_on_open := _user_on_open s |}.

Definition set_thread (v : option ThreadHandle) (s : Session) : Session :=
  {| access_token := access_token s; _ws := _ws s; _thread := v;
     _logger := _logger s; _connected := _connected s;
     _user_on_message := _user_on_message s;
     _user_on_error := _user_on_error s;
     _user_on_close := _user_on_close s;
     _user_on_open := _user_on_open s |}.

Definition set_connected (v : bool) (s : Session) : Session :=
  {| access_token := access_token s; _ws := _ws s; _thread := _thread s;
     _logger := _logger s; _connected := v;
     _user_on_message := _user_on_message s;
     _user_on_error := _user_on_error s;
     _user_on_close := _user_on_close s;
     _user_on_open := _user_on_open s |}.

Definition set_user_on_message (v : option Callback) (s : Session) : Session :=
  {| access_token := access_token s; _ws := _ws s; _thread := _thread s;
     _logger := _logger s; _connected := _connected s;
     _user_on_message := v;
     _user_on_error := _user_on_error s;
     _user_on_close := _user_on_close s;
     _user_on_open := _user_on_open s |}.

Definition set_user_on_error (v : option Callback) (s : Session) : Session :=
  {| access_token := access_token s; _ws := _ws s; _thread := _thread s;
     _logger := _logger s; _connected := _connected s;
     _user_on_message := _user_on_message s;
     _user_on_error := v;
     _user_on_close := _user_on_close s;
     _user_on_open := _user_on_open s |}.

Definition set_user_on_close (v : option Callback) (s : Session) : Session :=
  {| access_token := access_token s; _ws := _ws s; _thread := _thread s;
     _logger := _logger s; _connected := _connected s;
     _user_on_message := _user_on_message s;
     _user_on_error := _user_on_error s;
     _user_on_close := v;
     _user_on_open := _user_on_open s |}.

Definition set_user_on_open (v : option Callback) (s : Session) : Session :=
  {| access_token := access_token s; _ws := _ws s; _thread := _thread s;
     _logger := _logger s; _connected := _connected s;
     _user_on_message := _user_on_message s;
     _user_on_error := _user_on_error s;
     _user_on_close := _user_on_close s;
     _user_on_open := v |}.

(** ** The monad *)

Record World : Type := {
  sess : Session;
  ext : Ext;
  trace : list Call
}.

Definition M (A : Type) : Type := World -> Result A * World.

#[export] Instance M_ret : MRet M := fun A a w => (Ok a, w).

(** A raise skips the rest; what was written before it stays written. *)
#[export] Instance M_bind : MBind M := fun A B f m w =>
  match m w with
  | (Ok a, w') => f a w'
  | (Raise e, w') => (Raise e, w')
  end.

Definition get_attr {A : Type} (proj : Session -> A) : M A :=
  fun w => (Ok (proj (sess w)), w).

Definition set_attr (upd : Session -> Session) : M unit :=
  fun w => (Ok tt, {| sess := upd (sess w); ext := ext w; trace := trace w |}).

Definition lift_result {A : Type} (r : Result A) : M A :=
  fun w => (r, w).

(** A call to a collaborator: recorded, then run on the outside state. *)
Definition collab {A : Type} (c : Call) (f : Ext -> Result A * Ext) : M A :=
  fun w =>
    let (r, x) := f (ext w) in
    (r, {| sess := sess w; ext := x; trace := trace w ++ [c] |}).

(** [self._logger.<lvl>(fmt, *args)]; [logging] does not raise. *)
Definition logging (lvl : LogLevel) (fmt : string) (args : list PyVal) : M unit :=
  fun w =>
    (Ok tt, {| sess := sess w; ext := ext w;
               trace := trace w ++ [CallLog (_logger (sess w)) lvl fmt args] |}).

(** A call of a user callback [f] with positional arguments [args]. *)
Definition call_user (k : CallbackKind) (f : Callback) (args : list PyVal) : M unit :=
  fun w =>
    let (o, x) := f args (_connected (sess w)) (ext w) in
    (match o with None => Ok tt | Some e => Raise e end,
     {| sess := sess w; ext := x; trace := trace w ++ [CallUser k args] |}).

(** [try: body / except <catches> as exc: handler exc]. *)
Definition try_except {A : Type} (body : M A) (catches : Exn -> bool)
    (handler : Exn -> M A) : M A :=
  fun w =>
    match body w with
    | (Ok a, w') => (Ok a, w')
    | (Raise e, w') => if catches e then handler e w' else (Raise e, w')
    end.

(** [d[key]] on a dict of strings. *)
Definition dict_getitem (d : gmap string string) (key : string) : Result string :=
  match d !! key with
  | Some v => Ok v
  | None => Raise {| exc_class := KeyError; exc_msg := key |}
  end.

(** [x or {}] for an optional dict. *)
Definition or_empty (kw : option Kwargs) : Kwargs :=
  match kw with
  | Some (p :: l) => p :: l
  | _ => []
  end.

(** ** The client *)

(** [__init__(access_token, logger=None)] *)
Definition __init__ (token : string) (logger : option Logger) : Session :=
  {| access_token := token;
     _ws := None;
     _thread := None;
     _logger := match logger with Some l => l | None => ModuleLogger end;
     _connected := false;
     _user_on_message := None;
     _user_on_error := None;
     _user_on_close := None;
     _user_on_open := None |}.

Definition _build_ws_url : M string :=
  token ← get_attr access_token;
  clean_token ← collab (CallCleanToken token) (Helpers_clean_token C token);
  ts ← collab CallTimestamp (Helpers_timestamp C);
  token' ← get_attr access_token;
  endpoint ← collab (CallParseToken token')
               (Helpers_parse_token_and_get_endpoint C token');
  let region_code := if String.eqb endpoint (EU_BASE_URL K) then "eu" else "us" in
  base ← lift_result (str_format C (WS_BASE_URL K) [region_code]);
  template ← lift_result (dict_getitem (ENDPOINTS K) "WS_LOGIN");
  path ← lift_result (str_format C template [clean_token; ts]);
  mret (base +:+ path).

Definition connect (on_message on_error on_close on_open : option Callback)
    (run_forever_kwargs : option Kwargs) : M unit :=
  set_attr (set_user_on_message on_message);;
  set_attr (set_user_on_error on_error);;
  set_attr (set_user_on_close on_close);;
  set_attr (set_user_on_open on_open);;
  url ← _build_ws_url;
  let headers := ["UA: " +:+ USER_AGENT K] in
  logging DEBUG "Connecting WebSocket to %s" [VStr url];;
  collab (CallImportModule "websocket") (importlib_import_module C "websocket");;
  ws ← collab (CallWebSocketApp url headers) (WebSocketApp C url headers);
  set_attr (set_ws (Some ws));;
  (* target=self._ws.run_forever: the socket just stored *)
  let kwargs := or_empty run_forever_kwargs in
  t ← collab (CallThread ws kwargs true) (Thread C ws kwargs true);
  set_attr (set_thread (Some t));;
  collab (CallStart t) (Thread_start C t).

Definition disconnect (timeout : Q) : M unit :=
  ws ← get_attr _ws;
  match ws with
  | Some h =>
      try_except (collab (CallClose h) (WebSocketApp_close C h))
        except_RuntimeError_OSError (fun _ => mret tt)
  | None => mret tt
  end;;
  th ← get_attr _thread;
  match th with
  | Some t =>
      alive ← collab (CallIsAlive t) (Thread_is_alive C t);
      if alive : bool then collab (CallJoin t timeout) (Thread_join C t timeout)
      else mret tt
  | None => mret tt
  end;;
  set_attr (set_connected false).

(** The default [timeout=2.0]. *)
Definition default_timeout : Q := 2 # 1.

(** The [connected] property. *)
Definition connected (s : Session) : bool := _connected s.

Definition _on_open : M unit :=
  set_attr (set_connected true);;
  logging DEBUG "WebSocket opened" [];;
  cb ← get_attr _user_on_open;
  match cb with
  | Some f =>
      try_except (call_user OnOpen f []) except_RuntimeError_OSError
        (fun exc => logging WARNING "on_open callback error: %s" [VExn exc])
  | None => mret tt
  end.

Definition _on_message (message : string) : M unit :=
  cb ← get_attr _user_on_message;
  match cb with
  | Some f =>
      try_except (call_user OnMessage f [VStr message]) except_RuntimeError_OSError
        (fun exc => logging WARNING "on_message callback error: %s" [VExn exc])
  | None => mret tt
  end.

Definition _on_error (error : Exn) : M unit :=
  logging DEBUG "WebSocket error: %s" [VExn error];;
  cb ← get_attr _user_on_error;
  match cb with
  | Some f =>
      try_except (call_user OnError f [VExn error]) except_RuntimeError_OSError
        (fun exc => logging WARNING "on_error callback error: %s" [VExn exc])
  | None => mret tt
  end.

Definition _on_close (status_code : option Z) (reason : option string) : M unit :=
  set_attr (set_connected false);;
  logging DEBUG "WebSocket closed: code=%s reason=%s"
    [of_opt_int status_code; of_opt_str reason];;
  cb ← get_attr _user_on_close;
  match cb with
  | Some f =>
      try_except
        (call_user OnClose f [of_opt_int status_code; of_opt_str reason])
        except_RuntimeError_OSError
        (fun exc => logging WARNING "on_close callback error: %s" [VExn exc])
  | None => mret tt
  end.

End Client.

Arguments Session : clear implicits.
Arguments World : clear implicits.
Arguments Collaborators : clear implicits.
Arguments Callback : clear implicits.

(** ** The events a session can go through

    The caller runs [connect] and [disconnect]; the worker running
    [run_forever] delivers the four events of the socket to the handlers
    wired in by [connect]. *)
Inductive Op (Ext : Type) : Type :=
| OpConnect (on_message on_error on_close on_open : option (Callback Ext))
    (run_forever_kwargs : option Kwargs)
| OpDisconnect (timeout : Q)
| OpOpen
| OpMessage (message : string)
| OpError (error : Exn)
| OpClose (status_code : option Z) (reason : option string).
Arguments OpConnect {Ext}.
Arguments OpDisconnect {Ext}.
Arguments OpOpen {Ext}.
Arguments OpMessage {Ext}.
Arguments OpError {Ext}.
Arguments OpClose {Ext}.

Definition run_op {Ext : Type} (K : Const) (C : Collaborators Ext)
    (op : Op Ext) : M unit :=
  match op with
  | OpConnect m e c o kw => connect K C m e c o kw
  | OpDisconnect timeout => disconnect C timeout
  | OpOpen => _on_open
  | OpMessage message => _on_message message
  | OpError error => _on_error error
  | OpClose status_code reason => _on_close status_code reason
  end.

(** The callback a handler forwards to, the arguments it forwards, the
    value of [connected] the callback can read during the call, and the
    warning the handler logs when the callback fails. *)
Definition registered {Ext : Type} (k : CallbackKind) (s : Session Ext)
    : option (Callback Ext) :=
  match k with
  | OnMessage => _user_on_message s
  | OnError => _user_on_error s
  | OnClose => _user_on_close s
  | OnOpen => _user_on_open s
  end.

Definition forwarded {Ext : Type} (op : Op Ext) : option (CallbackKind * list PyVal) :=
  match op with
  | OpOpen => Some (OnOpen, [])
  | OpMessage message => Some (OnMessage, [VStr message])
  | OpError error => Some (OnError, [VExn error])
  | OpClose status_code reason =>
      Some (OnClose, [of_opt_int status_code; of_opt_str reason])
  | OpConnect _ _ _ _ _ | OpDisconnect _ => None
  end.

Definition connected_during {Ext : Type} (op : Op Ext) (s : Session Ext) : bool :=
  match op with
  | OpOpen => true
  | OpClose _ _ => false
  | _ => _connected s
  end.

Definition callback_error_format (k : CallbackKind) : string :=
  match k with
  | OnMessage => "on_message callback error: %s"
  | OnError => "on_error callback error: %s"
  | OnClose => "on_close callback error: %s"
  | OnOpen => "on_open callback error: %s"
  end.

(** The calls a computation adds to the record of a world. *)
Definition new_calls {Ext : Type} {A : Type} (m : M A) (w : World Ext) : list Call :=
  drop (length (trace w)) (trace (snd (m w))).

(** [seg in s] on strings. *)
Definition contains (s seg : string) : Prop :=
  exists pre post : string, s = pre +:+ seg +:+ post.

Definition is_log (c : Call) : bool :=
  match c with CallLog _ _ _ _ => true | _ => false end.

Definition is_connect {Ext : Type} (op : Op Ext) : bool :=
  match op with OpConnect _ _ _ _ _ => true | _ => false end.

(** The world after a sequence of events, each one run from where the
    one before left the session, whether it returned or raised. *)
Definition run_ops {Ext : Type} (K : Const) (C : Collaborators Ext)
    (ops : list (Op Ext)) (w : World Ext) : World Ext :=
  fold_left (fun w' op => snd (run_op K C op w')) ops w.

(** ** A closed instance

    Stand-ins for the collaborators, to run the client on concrete
    inputs: a token carries its region after a colon and an empty
    token is refused, the clock is a
    counter, templates have [{}] fields only, and the outside state says
    how the socket and the worker will behave. *)
Module Fixture.

Record Outside : Type := {
  clock : nat;
  inbox : list PyVal;
  close_raises : option Exn;
  worker_alive : bool;
  worker_stops_in_time : bool
}.

Definition tick (x : Outside) : Outside :=
  {| clock := S (clock x); inbox := inbox x; close_raises := close_raises x;
     worker_alive := worker_alive x;
     worker_stops_in_time := worker_stops_in_time x |}.

Definition set_alive (b : bool) (x : Outside) : Outside :=
  {| clock := clock x; inbox := inbox x; close_raises := close_raises x;
     worker_alive := b; worker_stops_in_time := worker_stops_in_time x |}.

Definition deliver (v : list PyVal) (x : Outside) : Outside :=
  {| clock := clock x; inbox := inbox x ++ v; close_raises := close_raises x;
     worker_alive := worker_alive x;
     worker_stops_in_time := worker_stops_in_time x |}.

Fixpoint before_colon (s : string) : string :=
  match s with
  | EmptyString => EmptyString
  | String c r => if Ascii.eqb c ":"%char then EmptyString else String c (before_colon r)
  end.

Fixpoint after_colon (s : string) : string :=
  match s with
  | EmptyString => EmptyString
  | String c r => if Ascii.eqb c ":"%char then r else after_colon r
  end.

Fixpoint format_fields (template : string) (args : list string) : Result string :=
  match template with
  | EmptyString => Ok EmptyString
  | String c r =>
      match r with
      | String d r' =>
          if Ascii.eqb c "{"%char && Ascii.eqb d "}"%char then
            match args with
            | a :: args' =>
                match format_fields r' args' with
                | Ok s => Ok (a +:+ s)
                | Raise e => Raise e
                end
            | [] => Raise {| exc_class := IndexError;
                             exc_msg := "Replacement index out of range" |}
            end
          else
            match format_fields r args with
            | Ok s => Ok (String c s)
            | Raise e => Raise e
            end
      | EmptyString => Ok (String c EmptyString)
      end
  end.

Definition consts : Const :=
  {| WS_BASE_URL := "wss://ws-{}.example.test";
     ENDPOINTS := {[ "WS_LOGIN" := "/websocket?accessToken={}&timestamp={}" ]};
     USER_AGENT := "client/1.0";
     EU_BASE_URL := "https://api-eu.example.test" |}.

Definition collaborators : Collaborators Outside :=
  {| Helpers_clean_token := fun token x =>
       (if String.eqb token ""
        then Raise {| exc_class := ValueError; exc_msg := "empty token" |}
        else Ok (before_colon token), x);
     Helpers_timestamp := fun x =>
       (Ok (NilEmpty.string_of_uint (Nat.to_uint (clock x))), tick x);
     Helpers_parse_token_and_get_endpoint := fun token x =>
       (Ok (if String.eqb (after_colon token) "EU"
            then "https://api-eu.example.test"
            else "https://api-us.example.test"), x);
     str_format := format_fields;
     importlib_import_module := fun _ x => (Ok tt, x);
     WebSocketApp := fun _ _ x => (Ok (clock x), tick x);
     WebSocketApp_close := fun _ x =>
       (match close_raises x with Some e => Raise e | None => Ok tt end, x);
     Thread := fun _ _ _ x => (Ok (clock x), tick x);
     Thread_start := fun _ x => (Ok tt, set_alive true x);
     Thread_is_alive := fun _ x => (Ok (worker_alive x), x);
     Thread_join := fun _ _ x =>
       (Ok tt, if worker_stops_in_time x then set_alive false x else x) |}.

(** A callback that stores what it is given and returns. *)
Definition collect : Callback Outside :=
  fun args _ x => (None, deliver args x).

(** A callback that stores what it is given and then raises [e]. *)
Definition collect_and_raise (e : Exn) : Callback Outside :=
  fun args _ x => (Some e, deliver args x).

(** A callback that stores the value of [connected] it reads. *)
Definition read_connected : Callback Outside :=
  fun _ c x => (None, deliver [VStr (if c then "True" else "False")] x).

Definition quiet : Outside :=
  {| clock := 0; inbox := []; close_raises := None;
     worker_alive := false; worker_stops_in_time := true |}.

Definition fresh (token : string) : World Outside :=
  {| sess := __init__ token None; ext := quiet; trace := [] |}.

Definition token : string := "abc.def.ghi".

Definition boom (c : ExcClass) : Exn := {| exc_class := c; exc_msg := "boom" |}.

(** An outside in which [close()] raises [e] and the worker outlives
    every [join]. *)
Definition stubborn (e : Exn) : Outside :=
  {| clock := 0; inbox := []; close_raises := Some e;
     worker_alive := false; worker_stops_in_time := false |}.

(** The world after [connect(on_message=f, on_open=read_connected)] and
    the open event, started from the outside [x]. *)
Definition opened (token : string) (f : Callback Outside) (x : Outside)
    : World Outside :=
  snd (_on_open
         (snd (connect consts collaborators (Some f) None None
                 (Some read_connected) None
                 {| sess := __init__ token None; ext := x; trace := [] |}))).

(** The world after a [connect] that registers [collect] for all four
    events, started from the outside [x]. *)
Definition listening (x : Outside) : World Outside :=
  snd (connect consts collaborators (Some collect) (Some collect)
         (Some collect) (Some collect) None
         {| sess := __init__ token None; ext := x; trace := [] |}).

(** The constants without the login template. *)
Definition no_login : Const :=
  {| WS_BASE_URL := WS_BASE_URL consts; ENDPOINTS := ∅;
     USER_AGENT := USER_AGENT consts; EU_BASE_URL := EU_BASE_URL consts |}.

(** The collaborators with an import, a thread start or a join that
    raises [e]. *)
Definition failing (import start join : option Exn) : Collaborators Outside :=
  {| Helpers_clean_token := Helpers_clean_token collaborators;
     Helpers_timestamp := Helpers_timestamp collaborators;
     Helpers_parse_token_and_get_endpoint :=
       Helpers_parse_token_and_get_endpoint collaborators;
     str_format := str_format collaborators;
     importlib_import_module := fun name x =>
       match import with
       | Some e => (Raise e, x)
       | None => importlib_import_module collaborators name x
       end;
     WebSocketApp := WebSocketApp collaborators;
     WebSocketApp_close := WebSocketApp_close collaborators;
     Thread := Thread collaborators;
     Thread_start := fun t x =>
       match start with
       | Some e => (Raise e, x)
       | None => Thread_start collaborators t x
       end;
     Thread_is_alive := Thread_is_alive collaborators;
     Thread_join := fun t q x =>
       match join with
       | Some e => (Raise e, x)
       | None => Thread_join collaborators t q x
       end |}.


Definition us_url : string :=
  "wss://ws-us.example.test/websocket?accessToken=abc.def.ghi&timestamp=0".

End Fixture.

#[global] Arguments _build_ws_url {Ext} K C _ : simpl never.

(** * Properties *)

(** ** Exception classes *)

Lemma class_eqb_refl (c : ExcClass) : class_eqb c c = true.
Proof.
  induction c as [| | | | | | | | | | | | | | | |n b IH]; cbn; trivial.
  rewrite String.eqb_refl, IH. reflexivity.
Qed.

Lemma issubclass_refl (c : ExcClass) : issubclass c c = true.
Proof.
  unfold issubclass. destruct c; cbn; trivial.
  rewrite String.eqb_refl, class_eqb_refl. reflexivity.
Qed.

(** A subclass of a caught class is caught: the clause is closed under
    [UserClass]. *)
Lemma except_clause_subclass (n m : string) (c : ExcClass) :
  except_RuntimeError_OSError {| exc_class := c; exc_msg := m |} = true ->
  forall m', except_RuntimeError_OSError
               {| exc_class := UserClass n c; exc_msg := m' |} = true.
Proof.
  unfold except_RuntimeError_OSError, isinstance, issubclass. cbn.
  intros H m'. apply orb_true_iff in H. apply orb_true_iff.
  destruct H as [H|H]; rewrite H; auto using orb_true_r.
Qed.

Lemma except_clause_misses_ValueError (m : string) :
  except_RuntimeError_OSError {| exc_class := ValueError; exc_msg := m |} = false.
Proof. reflexivity. Qed.

Section Properties.

Context {Ext : Type} (K : Const) (C : Collaborators Ext).

Implicit Types (w : World Ext) (s : Session Ext) (e : Exn).

(** ** Running the monad *)

Ltac run :=
  unfold mbind, M_bind, mret, M_ret, get_attr, set_attr, lift_result,
    collab, logging, call_user, try_except; cbn.

(** One step of a run: case analysis on the innermost outcome the goal
    still depends on. *)
Ltac step :=
  match goal with
  | |- context [match ?t with _ => _ end] =>
      lazymatch t with
      | context [match _ with _ => _ end] => fail
      | _ => destruct t eqn:?
      end
  end; cbn.

(** ** [disconnect] *)

(** What [disconnect] does to the attributes: nothing but the final
    assignment, and that only when it gets there. *)
Lemma disconnect_sess (timeout : Q) w :
  sess (snd (disconnect C timeout w)) =
    if returns (fst (disconnect C timeout w))
    then set_connected false (sess w) else sess w.
Proof.
  unfold disconnect. run.
  destruct (_ws (sess w)) as [h|]; cbn.
  - destruct (WebSocketApp_close C h (ext w)) as [[[]|e] x]; cbn.
    + destruct (_thread (sess w)) as [t|]; cbn; trivial.
      destruct (Thread_is_alive C t x) as [[[|]|e'] x']; cbn; trivial.
      destruct (Thread_join C t timeout x') as [[[]|e''] x'']; cbn; trivial.
    + destruct (except_RuntimeError_OSError e); cbn; trivial.
      destruct (_thread (sess w)) as [t|]; cbn; trivial.
      destruct (Thread_is_alive C t x) as [[[|]|e'] x']; cbn; trivial.
      destruct (Thread_join C t timeout x') as [[[]|e''] x'']; cbn; trivial.
  - destruct (_thread (sess w)) as [t|]; cbn; trivial.
    destruct (Thread_is_alive C t (ext w)) as [[[|]|e'] x']; cbn; trivial.
    destruct (Thread_join C t timeout x') as [[[]|e''] x'']; cbn; trivial.
Qed.

(** C6. [connected] is false right after [__init__], and right after any
    [disconnect] that returns, whatever [close()] and the worker did:
    whether [close()] returned or failed with a swallowed error, whether
    the worker was alive, and whether [join] saw it stop. *)
Theorem connected_false_after_init_and_disconnect :
  (forall (token : string) (logger : option Logger),
     connected (__init__ (Ext := Ext) token logger) = false) /\
  (forall (timeout : Q) w,
     returns (fst (disconnect C timeout w)) = true ->
     connected (sess (snd (disconnect C timeout w))) = false).
Proof.
  split; [reflexivity|].
  intros timeout w H. rewrite disconnect_sess, H. reflexivity.
Qed.

(** C9, for what [disconnect] does to the handles. [disconnect] does not
    clear the connection handle:
    whether it returns or raises, the connection handle and the worker
    handle are afterwards what they were before the call, so the handle
    is absent after [disconnect] only when it was absent before. *)
Theorem disconnect_keeps_handles (timeout : Q) w :
  _ws (sess (snd (disconnect C timeout w))) = _ws (sess w) /\
  _thread (sess (snd (disconnect C timeout w))) = _thread (sess w).
Proof.
  rewrite disconnect_sess.
  destruct (returns (fst (disconnect C timeout w))); split; reflexivity.
Qed.

(** X26. When [close()] raises a [RuntimeError] or an [OSError] (an
    instance of either, subclasses included), [disconnect] swallows it
    and goes on exactly as after a [close()] that returned: with no
    worker it sets [connected] to false and returns; with a worker it
    asks [is_alive]; on a dead worker it sets [connected] to false and
    returns; on a live one it calls [join] with the timeout, and ends as
    [join] ends, with [connected] set to false if [join] returned. *)
Theorem disconnect_swallows_close_error (timeout : Q) w (h : WsHandle) e
    (x : Ext) :
  _ws (sess w) = Some h ->
  WebSocketApp_close C h (ext w) = (Raise e, x) ->
  except_RuntimeError_OSError e = true ->
  match _thread (sess w) with
  | None =>
      disconnect C timeout w =
        (Ok tt, {| sess := set_connected false (sess w); ext := x;
                   trace := trace w ++ [CallClose h] |})
  | Some t =>
      forall (alive : bool) (x' : Ext),
        Thread_is_alive C t x = (Ok alive, x') ->
        if alive then
          forall (r : Result unit) (x'' : Ext),
            Thread_join C t timeout x' = (r, x'') ->
            disconnect C timeout w =
              (r, {| sess := if returns r then set_connected false (sess w)
                             else sess w;
                     ext := x'';
                     trace := trace w ++
                       [CallClose h; CallIsAlive t; CallJoin t timeout] |})
        else
          disconnect C timeout w =
            (Ok tt, {| sess := set_connected false (sess w); ext := x';
                       trace := trace w ++ [CallClose h; CallIsAlive t] |})
  end.
Proof.
  intros Hws Hclose Hcaught.
  unfold disconnect. run. rewrite Hws. cbn. rewrite Hclose. cbn.
  rewrite Hcaught. cbn.
  destruct (_thread (sess w)) as [t|]; cbn; [|reflexivity].
  intros alive x' Halive. rewrite Halive. cbn.
  destruct alive; cbn; [|rewrite <- !app_assoc; reflexivity].
  intros r x'' Hjoin. rewrite Hjoin. cbn.
  destruct r as [[]|e']; cbn; rewrite <- !app_assoc; reflexivity.
Qed.

(** A [close()] failure of any other class leaves [disconnect] at once:
    no [is_alive], no [join], no write to [connected]. *)
Lemma disconnect_propagates_uncaught (timeout : Q) w (h : WsHandle) e
    (x : Ext) :
  _ws (sess w) = Some h ->
  WebSocketApp_close C h (ext w) = (Raise e, x) ->
  except_RuntimeError_OSError e = false ->
  disconnect C timeout w =
    (Raise e, {| sess := sess w; ext := x; trace := trace w ++ [CallClose h] |}).
Proof.
  intros Hws Hclose Hmiss. unfold disconnect. run.
  rewrite Hws. cbn. rewrite Hclose. cbn. rewrite Hmiss. reflexivity.
Qed.

(** ** The forwarding handlers *)

(** No handler writes a callback reference. *)
Lemma handler_keeps_callbacks (op : Op Ext) (k : CallbackKind)
    (args : list PyVal) w (k' : CallbackKind) :
  forwarded op = Some (k, args) ->
  registered k' (sess (snd (run_op K C op w))) = registered k' (sess w).
Proof.
  intros Hop.
  destruct op; cbn in Hop; try discriminate; cbn;
    unfold _on_open, _on_message, _on_error, _on_close; run;
    repeat step; destruct k'; reflexivity.
Qed.

(** X25. When a registered callback raises a [RuntimeError] or an
    [OSError] (subclasses included) while a forwarding handler
    calls it, the handler catches it, logs it as a warning and returns
    normally; the callback was called once, and every callback stays
    registered.  After a message handler has caught such a failure, the
    next message is forwarded to the callback again. *)
Theorem forwarding_isolates_caught_errors (op : Op Ext) (k : CallbackKind)
    (args : list PyVal) (f : Callback Ext) w e (x : Ext) :
  forwarded op = Some (k, args) ->
  registered k (sess w) = Some f ->
  f args (connected_during op (sess w)) (ext w) = (Some e, x) ->
  except_RuntimeError_OSError e = true ->
  fst (run_op K C op w) = Ok tt /\
  last (trace (snd (run_op K C op w))) =
    Some (CallLog (_logger (sess w)) WARNING (callback_error_format k) [VExn e]) /\
  List.filter is_user_call (new_calls (run_op K C op) w) = [CallUser k args] /\
  ext (snd (run_op K C op w)) = x /\
  (forall k', registered k' (sess (snd (run_op K C op w))) = registered k' (sess w)) /\
  (forall message : string,
     k = OnMessage ->
     In (CallUser OnMessage [VStr message])
       (new_calls (_on_message message) (snd (run_op K C op w)))).
Proof.
  intros Hop Hreg Hf Hcaught.
  assert (Hkeep := fun k' => handler_keeps_callbacks op k args w k' Hop).
  repeat match goal with |- _ /\ _ => split end; try exact Hkeep.
  5: {
    intros message ->. specialize (Hkeep OnMessage).
    rewrite Hreg in Hkeep. cbn in Hkeep.
    set (w1 := snd (run_op K C op w)) in *.
    unfold new_calls, _on_message. run. rewrite Hkeep. cbn.
    destruct (f [VStr message] (_connected (sess w1)) (ext w1)) as [[e1|] x1];
      cbn; [destruct (except_RuntimeError_OSError e1); cbn|];
      rewrite <- ?app_assoc, drop_app_length; cbn; auto.
  }
  all: destruct op; cbn in Hop; try discriminate;
    injection Hop as <- <-; cbn in Hreg, Hf; cbn;
    unfold new_calls, _on_open, _on_message, _on_error, _on_close; run;
    rewrite Hreg; cbn; rewrite Hf; cbn; rewrite Hcaught; cbn;
    rewrite <- ?app_assoc, ?drop_app_length; cbn;
    try reflexivity.
  all: rewrite last_app; reflexivity.
Qed.

(** A failure of any other class leaves the handler as it came, and
    nothing is logged about it. *)
Lemma forwarding_propagates_uncaught (op : Op Ext) (k : CallbackKind)
    (args : list PyVal) (f : Callback Ext) w e (x : Ext) :
  forwarded op = Some (k, args) ->
  registered k (sess w) = Some f ->
  f args (connected_during op (sess w)) (ext w) = (Some e, x) ->
  except_RuntimeError_OSError e = false ->
  fst (run_op K C op w) = Raise e /\
  List.filter is_warning (new_calls (run_op K C op) w) = [].
Proof.
  intros Hop Hreg Hf Hmiss.
  destruct op; cbn in Hop; try discriminate;
    injection Hop as <- <-; cbn in Hreg, Hf; cbn;
    unfold new_calls, _on_open, _on_message, _on_error, _on_close; run;
    rewrite Hreg; cbn; rewrite Hf; cbn; rewrite Hmiss; cbn;
    rewrite <- ?app_assoc, ?drop_app_length; cbn; split; reflexivity.
Qed.

(** C8. The open handler sets [connected] to true first: a registered
    [on_open] callback is called exactly once, with no arguments, and
    reads [connected] as true; with none registered no user callback is
    called.  The session is left connected either way. *)
Theorem on_open_sets_connected_then_calls w :
  connected (sess (snd (_on_open w))) = true /\
  match _user_on_open (sess w) with
  | Some f =>
      List.filter is_user_call (new_calls _on_open w) = [CallUser OnOpen []] /\
      ext (snd (_on_open w)) = snd (f [] true (ext w))
  | None =>
      List.filter is_user_call (new_calls _on_open w) = [] /\
      _on_open w =
        (Ok tt, {| sess := set_connected true (sess w); ext := ext w;
                   trace := trace w ++
                     [CallLog (_logger (sess w)) DEBUG "WebSocket opened" []] |})
  end.
Proof.
  unfold new_calls, _on_open. run.
  destruct (_user_on_open (sess w)) as [f|]; cbn.
  - destruct (f [] true (ext w)) as [[e|] x]; cbn;
      [destruct (except_RuntimeError_OSError e); cbn|];
      rewrite <- ?app_assoc, drop_app_length; cbn; auto.
  - rewrite drop_app_length. cbn. auto.
Qed.

(** ** The login URL *)

(** [_build_ws_url] reads the token and nothing else of [self], and
    writes no attribute. *)
Lemma build_ws_url_frame w s :
  access_token s = access_token (sess w) ->
  _build_ws_url K C {| sess := s; ext := ext w; trace := trace w |} =
    (fst (_build_ws_url K C w),
     {| sess := s; ext := ext (snd (_build_ws_url K C w));
        trace := trace (snd (_build_ws_url K C w)) |}).
Proof.
  intros Htok. unfold _build_ws_url, dict_getitem. run.
  repeat (rewrite ?Htok; step); reflexivity.
Qed.

Lemma build_ws_url_sess w : sess (snd (_build_ws_url K C w)) = sess w.
Proof.
  unfold _build_ws_url, dict_getitem. run. repeat step; reflexivity.
Qed.

(** When the three helpers return, the templates decide. *)
Lemma build_ws_url_ok w (clean ts endpoint : string) (x1 x2 x3 : Ext)
    (base template path : string) :
  Helpers_clean_token C (access_token (sess w)) (ext w) = (Ok clean, x1) ->
  Helpers_timestamp C x1 = (Ok ts, x2) ->
  Helpers_parse_token_and_get_endpoint C (access_token (sess w)) x2 =
    (Ok endpoint, x3) ->
  str_format C (WS_BASE_URL K)
    [if String.eqb endpoint (EU_BASE_URL K) then "eu" else "us"] = Ok base ->
  ENDPOINTS K !! "WS_LOGIN" = Some template ->
  str_format C template [clean; ts] = Ok path ->
  _build_ws_url K C w =
    (Ok (base +:+ path),
     {| sess := sess w; ext := x3;
        trace := trace w ++
          [CallCleanToken (access_token (sess w)); CallTimestamp;
           CallParseToken (access_token (sess w))] |}).
Proof.
  intros H1 H2 H3 Hbase Htpl Hpath.
  unfold _build_ws_url, dict_getitem. run.
  rewrite H1. cbn. rewrite H2. cbn. rewrite H3. cbn.
  rewrite Hbase. cbn. rewrite Htpl. cbn. rewrite Hpath. cbn.
  rewrite <- !app_assoc. reflexivity.
Qed.

Lemma build_ws_url_inv w (url : string) :
  fst (_build_ws_url K C w) = Ok url ->
  exists (clean ts endpoint : string) (x1 x2 x3 : Ext)
         (base template path : string),
    Helpers_clean_token C (access_token (sess w)) (ext w) = (Ok clean, x1) /\
    Helpers_timestamp C x1 = (Ok ts, x2) /\
    Helpers_parse_token_and_get_endpoint C (access_token (sess w)) x2 =
      (Ok endpoint, x3) /\
    str_format C (WS_BASE_URL K)
      [if String.eqb endpoint (EU_BASE_URL K) then "eu" else "us"] = Ok base /\
    ENDPOINTS K !! "WS_LOGIN" = Some template /\
    str_format C template [clean; ts] = Ok path /\
    url = base +:+ path.
Proof.
  unfold _build_ws_url, dict_getitem. run.
  repeat step; intros H; try discriminate H.
  all: injection H as <-; subst; do 9 eexists.
  all: repeat match goal with |- _ /\ _ => split end;
    first [ reflexivity | eassumption
          | match goal with
            | H : String.eqb _ _ = _ |- _ => rewrite H; eassumption
            end ].
Qed.

(** ** [connect] *)

(** Every socket [connect] creates is created on the URL
    [_build_ws_url] returns, with the one user-agent header. *)
Lemma connect_opens_built_url
    (on_message on_error on_close on_open : option (Callback Ext))
    (kw : option Kwargs) w (url : string) (header : list string) :
  In (CallWebSocketApp url header)
    (new_calls (connect K C on_message on_error on_close on_open kw) w) ->
  fst (_build_ws_url K C w) = Ok url /\ header = ["UA: " +:+ USER_AGENT K].
Proof.
  unfold new_calls, connect. run.
  rewrite (build_ws_url_frame w) by reflexivity.
  assert (Hin : exists l, trace (snd (_build_ws_url K C w)) = trace w ++ l /\
                  ~ In (CallWebSocketApp url header) l).
  { unfold _build_ws_url, dict_getitem. run.
    repeat step; rewrite <- ?app_assoc; eexists; (split; [reflexivity|]);
      cbn; intuition discriminate. }
  destruct Hin as (l & Hl & Hnot).
  destruct (_build_ws_url K C w) as [[u|e] w1]; cbn in *; rewrite Hl;
    repeat step; rewrite <- ?app_assoc, drop_app_length;
    rewrite ?in_app_iff; cbn; intros H;
    repeat match goal with
      | H : _ \/ _ |- _ => destruct H
      | H : False |- _ => destruct H
      | H : In _ l |- _ => destruct (Hnot H)
      | H : CallWebSocketApp _ _ = CallWebSocketApp _ _ |- _ =>
          injection H as <- <-
      end; try discriminate; auto.
Qed.

(** What each event does to [connected]. *)
Lemma run_op_connected (op : Op Ext) w :
  connected (sess (snd (run_op K C op w))) =
    match op with
    | OpOpen => true
    | OpClose _ _ => false
    | OpDisconnect timeout =>
        if returns (fst (disconnect C timeout w)) then false
        else connected (sess w)
    | OpConnect _ _ _ _ _ | OpMessage _ | OpError _ => connected (sess w)
    end.
Proof.
  destruct op; cbn.
  - unfold connect. run. rewrite (build_ws_url_frame w) by reflexivity.
    destruct (_build_ws_url K C w) as [[u|e] w1]; cbn; repeat step; reflexivity.
  - rewrite disconnect_sess.
    destruct (returns (fst (disconnect C timeout w))); reflexivity.
  - unfold _on_open. run. repeat step; reflexivity.
  - unfold _on_message. run. repeat step; reflexivity.
  - unfold _on_error. run. repeat step; reflexivity.
  - unfold _on_close. run. repeat step; reflexivity.
Qed.

(** C1. When the helpers return and a URL is built, it starts with (so
    contains) [WS_BASE_URL] formatted with ["eu"] if
    [parse_token_and_get_endpoint] returned [EU_BASE_URL], and with
    ["us"] for every other identifier; and it is the URL of every socket
    [connect] creates. *)
Theorem connect_url_region w (clean ts endpoint : string) (x1 x2 x3 : Ext)
    (url : string) :
  Helpers_clean_token C (access_token (sess w)) (ext w) = (Ok clean, x1) ->
  Helpers_timestamp C x1 = (Ok ts, x2) ->
  Helpers_parse_token_and_get_endpoint C (access_token (sess w)) x2 =
    (Ok endpoint, x3) ->
  fst (_build_ws_url K C w) = Ok url ->
  (endpoint = EU_BASE_URL K ->
     exists base : string,
       str_format C (WS_BASE_URL K) ["eu"] = Ok base /\ contains url base) /\
  (endpoint <> EU_BASE_URL K ->
     exists base : string,
       str_format C (WS_BASE_URL K) ["us"] = Ok base /\ contains url base) /\
  (forall (on_message on_error on_close on_open : option (Callback Ext))
          (kw : option Kwargs) (url' : string) (header : list string),
     In (CallWebSocketApp url' header)
       (new_calls (connect K C on_message on_error on_close on_open kw) w) ->
     url' = url).
Proof.
  intros H1 H2 H3 Hurl.
  destruct (build_ws_url_inv w url Hurl)
    as (c' & t' & ep & y1 & y2 & y3 & base & tpl & path &
        E1 & E2 & E3 & Hbase & _ & _ & ->).
  rewrite H1 in E1. injection E1 as <- <-.
  rewrite H2 in E2. injection E2 as <- <-.
  rewrite H3 in E3. injection E3 as <- <-.
  split; [|split].
  - intros Heu. apply String.eqb_eq in Heu. rewrite Heu in Hbase.
    exists base. split; [exact Hbase|]. exists "", path. reflexivity.
  - intros Hus. apply String.eqb_neq in Hus. rewrite Hus in Hbase.
    exists base. split; [exact Hbase|]. exists "", path. reflexivity.
  - intros m e c o kw url' header Hin.
    apply connect_opens_built_url in Hin. destruct Hin as [Hin _].
    rewrite Hurl in Hin. injection Hin as <-. reflexivity.
Qed.

(** C2. [_build_ws_url] returns a URL exactly when the three helpers
    return, the [WS_LOGIN] template exists and both templates format; the
    URL is then the formatted base followed by the login path formatted
    with the cleaned token and the timestamp, and nothing else.  It is
    the URL, and the user-agent header the only header, of every socket
    [connect] creates. *)
Theorem connect_url_is_base_then_path w :
  (forall url : string,
     fst (_build_ws_url K C w) = Ok url <->
     exists (clean ts endpoint : string) (x1 x2 x3 : Ext)
            (base template path : string),
       Helpers_clean_token C (access_token (sess w)) (ext w) = (Ok clean, x1) /\
       Helpers_timestamp C x1 = (Ok ts, x2) /\
       Helpers_parse_token_and_get_endpoint C (access_token (sess w)) x2 =
         (Ok endpoint, x3) /\
       str_format C (WS_BASE_URL K)
         [if String.eqb endpoint (EU_BASE_URL K) then "eu" else "us"] = Ok base /\
       ENDPOINTS K !! "WS_LOGIN" = Some template /\
       str_format C template [clean; ts] = Ok path /\
       url = base +:+ path) /\
  (forall (on_message on_error on_close on_open : option (Callback Ext))
          (kw : option Kwargs) (url : string) (header : list string),
     In (CallWebSocketApp url header)
       (new_calls (connect K C on_message on_error on_close on_open kw) w) ->
     fst (_build_ws_url K C w) = Ok url /\
     header = ["UA: " +:+ USER_AGENT K]).
Proof.
  split.
  - intros url. split; [apply build_ws_url_inv|].
    intros (clean & ts & ep & x1 & x2 & x3 & base & tpl & path &
            H1 & H2 & H3 & Hbase & Htpl & Hpath & ->).
    rewrite (build_ws_url_ok w _ _ _ _ _ _ _ _ _ H1 H2 H3 Hbase Htpl Hpath).
    reflexivity.
  - intros m e c o kw url header. apply connect_opens_built_url.
Qed.

(** C10. [connect] stores the four callbacks before it builds the URL:
    when [_build_ws_url] raises, [connect] raises the same exception, the
    four callback references are already the new ones, and the
    connection handle, the worker handle and [connected] are what they
    were. *)
Theorem connect_not_atomic_on_url_failure
    (on_message on_error on_close on_open : option (Callback Ext))
    (kw : option Kwargs) w e :
  fst (_build_ws_url K C w) = Raise e ->
  let r := connect K C on_message on_error on_close on_open kw w in
  fst r = Raise e /\
  _user_on_message (sess (snd r)) = on_message /\
  _user_on_error (sess (snd r)) = on_error /\
  _user_on_close (sess (snd r)) = on_close /\
  _user_on_open (sess (snd r)) = on_open /\
  _ws (sess (snd r)) = _ws (sess w) /\
  _thread (sess (snd r)) = _thread (sess w) /\
  _connected (sess (snd r)) = _connected (sess w).
Proof.
  intros Hurl. unfold connect. run.
  rewrite (build_ws_url_frame w) by reflexivity.
  destruct (_build_ws_url K C w) as [[u|e'] w1]; cbn in *; [discriminate|].
  injection Hurl as ->. repeat split; reflexivity.
Qed.

(** C4, with [disconnect] counted in. [connected] changes only in the
    open handler (to
    true), in the close handler (to false) and in [disconnect] (to
    false); [connect] never changes it. *)
Theorem connected_changes_only_in_open_close_disconnect :
  (forall (op : Op Ext) w,
     connected (sess (snd (run_op K C op w))) <> connected (sess w) ->
     (op = OpOpen /\ connected (sess (snd (run_op K C op w))) = true) \/
     (((exists status_code reason, op = OpClose status_code reason) \/
       (exists timeout, op = OpDisconnect timeout)) /\
      connected (sess (snd (run_op K C op w))) = false)) /\
  (forall (on_message on_error on_close on_open : option (Callback Ext))
          (kw : option Kwargs) w,
     connected
       (sess (snd (connect K C on_message on_error on_close on_open kw w))) =
     connected (sess w)).
Proof.
  split.
  - intros op w. rewrite run_op_connected.
    destruct op; intros H; try (exfalso; apply H; reflexivity).
    + destruct (returns (fst (disconnect C timeout w)));
        [|exfalso; apply H; reflexivity].
      right. split; [right; exists timeout|]; reflexivity.
    + left. split; reflexivity.
    + right. split; [left; exists status_code, reason|]; reflexivity.
  - intros m e c o kw w.
    apply (run_op_connected (OpConnect m e c o kw) w).
Qed.

(** * Further properties of the client *)

(** ** What the handlers do and leave alone *)

(** A handler writes [connected] and nothing else. *)
Lemma handler_sess (op : Op Ext) (k : CallbackKind) (args : list PyVal) w :
  forwarded op = Some (k, args) ->
  sess (snd (run_op K C op w)) =
    set_connected (connected_during op (sess w)) (sess w).
Proof.
  intros Hop.
  destruct op; cbn in Hop; try discriminate; cbn;
    unfold _on_open, _on_message, _on_error, _on_close; run;
    repeat step; try reflexivity; destruct (sess w); reflexivity.
Qed.

(** The calls of a handler: the debug record if it writes one, then the
    callback if one is registered, then the warning if the callback
    failed with a caught exception. *)
Lemma handler_trace (op : Op Ext) (k : CallbackKind) (args : list PyVal) w :
  forwarded op = Some (k, args) ->
  exists l : list Call,
    trace (snd (run_op K C op w)) = trace w ++ l /\
    Forall (fun c => is_log c || is_user_call c = true) l /\
    List.filter is_user_call l =
      match registered k (sess w) with
      | Some _ => [CallUser k args]
      | None => []
      end.
Proof.
  intros Hop.
  destruct op; cbn in Hop; try discriminate; injection Hop as <- <-; cbn;
    unfold _on_open, _on_message, _on_error, _on_close; run;
    repeat step; rewrite <- ?app_assoc;
    first [ eexists; split; [reflexivity|]
          | exists []; split; [symmetry; apply app_nil_r|] ];
    (split; [repeat constructor | reflexivity]).
Qed.

(** X1. Each handler forwards to its own callback only: when one is
    registered it is called exactly once, with the arguments of the
    event, and the handler returns unless the callback raised an
    exception the clause does not catch; when none is registered nothing
    is called and the outside is left as it was. *)
Theorem handler_forwards_exactly_once (op : Op Ext) (k : CallbackKind)
    (args : list PyVal) w :
  forwarded op = Some (k, args) ->
  match registered k (sess w) with
  | Some f =>
      List.filter is_user_call (new_calls (run_op K C op) w) = [CallUser k args] /\
      ext (snd (run_op K C op w)) =
        snd (f args (connected_during op (sess w)) (ext w)) /\
      fst (run_op K C op w) =
        match fst (f args (connected_during op (sess w)) (ext w)) with
        | Some e => if except_RuntimeError_OSError e then Ok tt else Raise e
        | None => Ok tt
        end
  | None =>
      List.filter is_user_call (new_calls (run_op K C op) w) = [] /\
      ext (snd (run_op K C op w)) = ext w /\
      fst (run_op K C op w) = Ok tt
  end.
Proof.
  intros Hop.
  destruct (handler_trace op k args w Hop) as (l & Hl & _ & Hcalls).
  unfold new_calls. rewrite Hl, drop_app_length.
  destruct op; cbn in Hop; try discriminate; injection Hop as <- <-;
    cbn in *; unfold _on_open, _on_message, _on_error, _on_close; run;
    repeat step; repeat split; assumption.
Qed.

(** X2. A handler calls the logger and the user callback and nothing
    else (no [close], no [join], no helper), and of the attributes it
    writes [connected] alone: the handles, the token, the logger and the
    callbacks stay. *)
Theorem handler_only_logs_and_forwards (op : Op Ext) (k : CallbackKind)
    (args : list PyVal) w :
  forwarded op = Some (k, args) ->
  Forall (fun c => is_log c || is_user_call c = true)
    (new_calls (run_op K C op) w) /\
  sess (snd (run_op K C op w)) =
    set_connected (connected_during op (sess w)) (sess w).
Proof.
  intros Hop. split; [|apply (handler_sess op k args w Hop)].
  destruct (handler_trace op k args w Hop) as (l & Hl & Hall & _).
  unfold new_calls. rewrite Hl, drop_app_length. exact Hall.
Qed.

(** The calls of a run of message events. *)
Lemma messages_trace (ms : list string) (f : Callback Ext) w :
  _user_on_message (sess w) = Some f ->
  exists l : list Call,
    trace (run_ops K C (map OpMessage ms) w) = trace w ++ l /\
    List.filter is_user_call l =
      map (fun m => CallUser OnMessage [VStr m]) ms.
Proof.
  revert w. induction ms as [|m ms IH]; intros w Hreg; cbn.
  - exists []. split; [symmetry; apply app_nil_r | reflexivity].
  - destruct (handler_trace (OpMessage m) OnMessage [VStr m] w eq_refl)
      as (l1 & Hl1 & _ & Hc1).
    cbn in Hc1, Hl1. rewrite Hreg in Hc1.
    assert (Hreg' : _user_on_message (sess (snd (_on_message m w))) = Some f).
    { rewrite <- Hreg.
      apply (handler_keeps_callbacks (OpMessage m) OnMessage [VStr m] w
               OnMessage eq_refl). }
    destruct (IH _ Hreg') as (l2 & Hl2 & Hc2).
    exists (l1 ++ l2). split.
    + unfold run_ops in Hl2. rewrite Hl2, Hl1, app_assoc. reflexivity.
    + rewrite List.filter_app, Hc1, Hc2. reflexivity.
Qed.

(** X3. Messages are forwarded one call each and in arrival order: after
    any run of message events on a session with an [on_message]
    callback, the callback has been called once per message, in order,
    whatever it raised on the way. *)
Theorem messages_forwarded_in_order (ms : list string) (f : Callback Ext) w :
  _user_on_message (sess w) = Some f ->
  List.filter is_user_call
    (drop (length (trace w)) (trace (run_ops K C (map OpMessage ms) w))) =
  map (fun m => CallUser OnMessage [VStr m]) ms.
Proof.
  intros Hreg. destruct (messages_trace ms f w Hreg) as (l & Hl & Hc).
  rewrite Hl, drop_app_length. exact Hc.
Qed.

(** ** The calls of [_build_ws_url] and [connect] *)

Lemma build_ws_url_trace w :
  exists l : list Call,
    trace (snd (_build_ws_url K C w)) = trace w ++ l /\
    l `prefix_of`
      [CallCleanToken (access_token (sess w)); CallTimestamp;
       CallParseToken (access_token (sess w))] /\
    (returns (fst (_build_ws_url K C w)) = true ->
     l = [CallCleanToken (access_token (sess w)); CallTimestamp;
          CallParseToken (access_token (sess w))]).
Proof.
  unfold _build_ws_url, dict_getitem. run.
  repeat step; rewrite <- ?app_assoc; eexists;
    (split; [reflexivity|]);
    (split; [eexists; cbn; reflexivity | cbn; intros H; congruence]).
Qed.

(** X4. [_build_ws_url] calls the three helpers in the order
    [clean_token], [timestamp], [parse_token_and_get_endpoint], each at
    most once and on the session's token, stops at the first that
    raises, calls nothing else, and writes no attribute. *)
Theorem build_ws_url_calls_helpers_in_order w :
  new_calls (_build_ws_url K C) w `prefix_of`
    [CallCleanToken (access_token (sess w)); CallTimestamp;
     CallParseToken (access_token (sess w))] /\
  (returns (fst (_build_ws_url K C w)) = true ->
   new_calls (_build_ws_url K C) w =
     [CallCleanToken (access_token (sess w)); CallTimestamp;
      CallParseToken (access_token (sess w))]) /\
  sess (snd (_build_ws_url K C w)) = sess w.
Proof.
  destruct (build_ws_url_trace w) as (l & Hl & Hpre & Hall).
  unfold new_calls. rewrite Hl, drop_app_length.
  split; [exact Hpre|]. split; [exact Hall | apply build_ws_url_sess].
Qed.

(** X5. With no [WS_LOGIN] entry in [ENDPOINTS], [_build_ws_url] raises
    [KeyError] once the helpers have returned and the base has been
    formatted, and [connect] raises it in turn without creating a
    socket. *)
Theorem build_ws_url_missing_login_template w (clean ts endpoint : string)
    (x1 x2 x3 : Ext) (base : string) :
  Helpers_clean_token C (access_token (sess w)) (ext w) = (Ok clean, x1) ->
  Helpers_timestamp C x1 = (Ok ts, x2) ->
  Helpers_parse_token_and_get_endpoint C (access_token (sess w)) x2 =
    (Ok endpoint, x3) ->
  str_format C (WS_BASE_URL K)
    [if String.eqb endpoint (EU_BASE_URL K) then "eu" else "us"] = Ok base ->
  ENDPOINTS K !! "WS_LOGIN" = None ->
  fst (_build_ws_url K C w) =
    Raise {| exc_class := KeyError; exc_msg := "WS_LOGIN" |} /\
  forall (on_message on_error on_close on_open : option (Callback Ext))
         (kw : option Kwargs),
    fst (connect K C on_message on_error on_close on_open kw w) =
      Raise {| exc_class := KeyError; exc_msg := "WS_LOGIN" |} /\
    _ws (sess (snd (connect K C on_message on_error on_close on_open kw w))) =
      _ws (sess w).
Proof.
  intros H1 H2 H3 Hbase Hkey.
  assert (Hb : fst (_build_ws_url K C w) =
                 Raise {| exc_class := KeyError; exc_msg := "WS_LOGIN" |}).
  { unfold _build_ws_url, dict_getitem. run.
    rewrite H1. cbn. rewrite H2. cbn. rewrite H3. cbn.
    rewrite Hbase. cbn. rewrite Hkey. reflexivity. }
  split; [exact Hb|]. intros m e c o kw.
  unfold connect. run. rewrite (build_ws_url_frame w) by reflexivity.
  destruct (_build_ws_url K C w) as [[u|e'] w1]; cbn in *; [discriminate|].
  injection Hb as ->. split; reflexivity.
Qed.

(** X6. When the URL is built and the five calls that follow return,
    [connect] returns with the new socket and the new worker stored; it
    has logged the URL, imported [websocket], created the socket on the
    URL with the user-agent header, created a daemon thread on that
    socket with the run-loop options and started it, in that order; and
    [connected] is what it was: only the open event sets it. *)
Theorem connect_starts_worker
    (on_message on_error on_close on_open : option (Callback Ext))
    (kw : option Kwargs) w (url : string) (x1 x2 x3 x4 : Ext)
    (ws : WsHandle) (t : ThreadHandle) :
  fst (_build_ws_url K C w) = Ok url ->
  importlib_import_module C "websocket" (ext (snd (_build_ws_url K C w))) =
    (Ok tt, x1) ->
  WebSocketApp C url ["UA: " +:+ USER_AGENT K] x1 = (Ok ws, x2) ->
  Thread C ws (or_empty kw) true x2 = (Ok t, x3) ->
  Thread_start C t x3 = (Ok tt, x4) ->
  fst (connect K C on_message on_error on_close on_open kw w) = Ok tt /\
  _ws (sess (snd (connect K C on_message on_error on_close on_open kw w))) =
    Some ws /\
  _thread (sess (snd (connect K C on_message on_error on_close on_open kw w))) =
    Some t /\
  connected
    (sess (snd (connect K C on_message on_error on_close on_open kw w))) =
    connected (sess w) /\
  ext (snd (connect K C on_message on_error on_close on_open kw w)) = x4 /\
  trace (snd (connect K C on_message on_error on_close on_open kw w)) =
    trace (snd (_build_ws_url K C w)) ++
      [CallLog (_logger (sess w)) DEBUG "Connecting WebSocket to %s" [VStr url];
       CallImportModule "websocket";
       CallWebSocketApp url ["UA: " +:+ USER_AGENT K];
       CallThread ws (or_empty kw) true;
       CallStart t].
Proof.
  intros Hurl Himp Hws Hth Hst. unfold connect. run.
  rewrite (build_ws_url_frame w) by reflexivity.
  destruct (_build_ws_url K C w) as [[u|e] w1]; cbn in *; [|discriminate].
  injection Hurl as ->.
  rewrite Himp. cbn. rewrite Hws. cbn. rewrite Hth. cbn. rewrite Hst. cbn.
  rewrite <- !app_assoc. repeat split; reflexivity.
Qed.

(** X7. When [importlib] cannot import [websocket], [connect] raises
    what the import raised: the URL is built and already in the debug
    log, no socket and no thread are created, and the handles are what
    they were. *)
Theorem connect_import_failure
    (on_message on_error on_close on_open : option (Callback Ext))
    (kw : option Kwargs) w (url : string) e (x1 : Ext) :
  fst (_build_ws_url K C w) = Ok url ->
  importlib_import_module C "websocket" (ext (snd (_build_ws_url K C w))) =
    (Raise e, x1) ->
  fst (connect K C on_message on_error on_close on_open kw w) = Raise e /\
  _ws (sess (snd (connect K C on_message on_error on_close on_open kw w))) =
    _ws (sess w) /\
  _thread (sess (snd (connect K C on_message on_error on_close on_open kw w))) =
    _thread (sess w) /\
  trace (snd (connect K C on_message on_error on_close on_open kw w)) =
    trace (snd (_build_ws_url K C w)) ++
      [CallLog (_logger (sess w)) DEBUG "Connecting WebSocket to %s" [VStr url];
       CallImportModule "websocket"].
Proof.
  intros Hurl Himp. unfold connect. run.
  rewrite (build_ws_url_frame w) by reflexivity.
  destruct (_build_ws_url K C w) as [[u|e'] w1]; cbn in *; [|discriminate].
  injection Hurl as ->. rewrite Himp. cbn.
  rewrite <- !app_assoc. repeat split; reflexivity.
Qed.

(** X8. [connect] does not roll back: when the thread cannot be started,
    [connect] raises what [start] raised with the new socket and the new
    thread already stored, and the socket it created is not closed. *)
Theorem connect_start_failure
    (on_message on_error on_close on_open : option (Callback Ext))
    (kw : option Kwargs) w (url : string) e (x1 x2 x3 x4 : Ext)
    (ws : WsHandle) (t : ThreadHandle) :
  fst (_build_ws_url K C w) = Ok url ->
  importlib_import_module C "websocket" (ext (snd (_build_ws_url K C w))) =
    (Ok tt, x1) ->
  WebSocketApp C url ["UA: " +:+ USER_AGENT K] x1 = (Ok ws, x2) ->
  Thread C ws (or_empty kw) true x2 = (Ok t, x3) ->
  Thread_start C t x3 = (Raise e, x4) ->
  fst (connect K C on_message on_error on_close on_open kw w) = Raise e /\
  _ws (sess (snd (connect K C on_message on_error on_close on_open kw w))) =
    Some ws /\
  _thread (sess (snd (connect K C on_message on_error on_close on_open kw w))) =
    Some t /\
  ~ In (CallClose ws)
      (new_calls (connect K C on_message on_error on_close on_open kw) w).
Proof.
  intros Hurl Himp Hws Hth Hst.
  destruct (build_ws_url_trace w) as (l & Hl & [k Hk] & _).
  unfold new_calls, connect. run.
  rewrite (build_ws_url_frame w) by reflexivity.
  destruct (_build_ws_url K C w) as [[u|e'] w1]; cbn in *; [|discriminate].
  injection Hurl as ->.
  rewrite Himp. cbn. rewrite Hws. cbn. rewrite Hth. cbn. rewrite Hst. cbn.
  repeat split; try reflexivity.
  rewrite Hl, <- !app_assoc, drop_app_length, in_app_iff. cbn.
  intros [Hin|Hin].
  - assert (Hin' : In (CallClose ws) (l ++ k)) by (apply in_app_iff; auto).
    rewrite <- Hk in Hin'. cbn in Hin'. intuition discriminate.
  - intuition discriminate.
Qed.

(** X9. [connect] overwrites the four callbacks whatever becomes of it:
    returned or raised, each callback attribute is afterwards the
    argument given for it, [None] included. *)
Theorem connect_replaces_callbacks
    (on_message on_error on_close on_open : option (Callback Ext))
    (kw : option Kwargs) w (k : CallbackKind) :
  registered k
    (sess (snd (connect K C on_message on_error on_close on_open kw w))) =
    match k with
    | OnMessage => on_message
    | OnError => on_error
    | OnClose => on_close
    | OnOpen => on_open
    end.
Proof.
  unfold connect. run. rewrite (build_ws_url_frame w) by reflexivity.
  destruct (_build_ws_url K C w) as [[u|e] w1]; cbn; repeat step;
    destruct k; reflexivity.
Qed.

(** X10. [connect] takes no account of an earlier connection: on two
    sessions with the same token and logger it has the same outcome,
    makes the same calls and leaves the same outside, whatever their
    handles, callbacks and [connected] were; it never calls [close] or
    [join] and no user callback, so an earlier socket and worker are
    left running. *)
Theorem connect_ignores_connection_state
    (on_message on_error on_close on_open : option (Callback Ext))
    (kw : option Kwargs) w s :
  access_token s = access_token (sess w) ->
  _logger s = _logger (sess w) ->
  fst (connect K C on_message on_error on_close on_open kw
         {| sess := s; ext := ext w; trace := trace w |}) =
    fst (connect K C on_message on_error on_close on_open kw w) /\
  ext (snd (connect K C on_message on_error on_close on_open kw
              {| sess := s; ext := ext w; trace := trace w |})) =
    ext (snd (connect K C on_message on_error on_close on_open kw w)) /\
  trace (snd (connect K C on_message on_error on_close on_open kw
                {| sess := s; ext := ext w; trace := trace w |})) =
    trace (snd (connect K C on_message on_error on_close on_open kw w)) /\
  Forall (fun c => is_close_or_join c || is_user_call c = false)
    (new_calls (connect K C on_message on_error on_close on_open kw) w).
Proof.
  intros Htok Hlog.
  destruct (build_ws_url_trace w) as (l & Hl & [k Hk] & _).
  assert (Hquiet : Forall (fun c => is_close_or_join c || is_user_call c = false) l).
  { assert (H : Forall (fun c => is_close_or_join c || is_user_call c = false)
                  (l ++ k)) by (rewrite <- Hk; repeat constructor).
    apply Forall_app in H. tauto. }
  unfold new_calls, connect. run.
  rewrite !(build_ws_url_frame w) by (cbn; first [exact Htok | reflexivity]).
  destruct (_build_ws_url K C w) as [[u|e] w1]; cbn in *; rewrite ?Hlog, Hl;
    repeat step; rewrite <- ?app_assoc, ?drop_app_length;
    repeat split; try reflexivity;
    try (apply Forall_app; split; [exact Hquiet | repeat constructor]);
    try exact Hquiet.
Qed.

(** X11. Every thread [connect] creates is a daemon thread, gets the
    run-loop options given ([{}] for none), and runs the socket this
    [connect] has just created and stored. *)
Theorem connect_thread_is_daemon_on_new_socket
    (on_message on_error on_close on_open : option (Callback Ext))
    (kw : option Kwargs) w (h : WsHandle) (kwargs : Kwargs) (daemon : bool) :
  In (CallThread h kwargs daemon)
    (new_calls (connect K C on_message on_error on_close on_open kw) w) ->
  daemon = true /\ kwargs = or_empty kw /\
  _ws (sess (snd (connect K C on_message on_error on_close on_open kw w))) =
    Some h /\
  exists (url : string) (header : list string),
    In (CallWebSocketApp url header)
      (new_calls (connect K C on_message on_error on_close on_open kw) w).
Proof.
  destruct (build_ws_url_trace w) as (l & Hl & [k Hk] & _).
  assert (Hnot : ~ In (CallThread h kwargs daemon) l).
  { intros Hin.
    assert (Hin' : In (CallThread h kwargs daemon) (l ++ k))
      by (apply in_app_iff; auto).
    rewrite <- Hk in Hin'. cbn in Hin'. intuition discriminate. }
  unfold new_calls, connect. run.
  rewrite (build_ws_url_frame w) by reflexivity.
  destruct (_build_ws_url K C w) as [[u|e] w1]; cbn in *; rewrite Hl;
    repeat step; rewrite <- ?app_assoc, drop_app_length;
    rewrite ?in_app_iff; cbn; intros H;
    repeat match goal with
      | H : _ \/ _ |- _ => destruct H
      | H : False |- _ => destruct H
      | H : In _ l |- _ => destruct (Hnot H)
      | H : CallThread _ _ _ = CallThread _ _ _ |- _ =>
          injection H as <- <- <-
      end; try discriminate;
    (split; [reflexivity|]); (split; [reflexivity|]);
    (split; [reflexivity|]); do 2 eexists; apply in_app_iff; right; cbn;
    eauto 10.
Qed.

(** X12. Once the URL is built, [connect] writes it in full to the
    session's logger at debug level before it imports or opens anything,
    so it is logged even when the rest of [connect] fails. *)
Theorem connect_logs_url
    (on_message on_error on_close on_open : option (Callback Ext))
    (kw : option Kwargs) w (url : string) :
  fst (_build_ws_url K C w) = Ok url ->
  exists rest : list Call,
    new_calls (connect K C on_message on_error on_close on_open kw) w =
      [CallCleanToken (access_token (sess w)); CallTimestamp;
       CallParseToken (access_token (sess w));
       CallLog (_logger (sess w)) DEBUG "Connecting WebSocket to %s" [VStr url]]
      ++ rest.
Proof.
  intros Hurl.
  destruct (build_ws_url_trace w) as (l & Hl & _ & Hall).
  rewrite Hurl in Hall. specialize (Hall eq_refl). subst l.
  unfold new_calls, connect. run.
  rewrite (build_ws_url_frame w) by reflexivity.
  destruct (_build_ws_url K C w) as [[u|e] w1]; cbn in *; [|discriminate].
  injection Hurl as ->. rewrite Hl.
  repeat step; rewrite <- ?app_assoc, drop_app_length; cbn;
    eexists; reflexivity.
Qed.

(** ** The calls of [disconnect] *)

Lemma disconnect_trace (timeout : Q) w :
  exists l : list Call,
    trace (snd (disconnect C timeout w)) =
      trace w ++
        match _ws (sess w) with Some h => [CallClose h] | None => [] end ++ l /\
    l `prefix_of`
      match _thread (sess w) with
      | Some t => [CallIsAlive t; CallJoin t timeout]
      | None => []
      end /\
    (In (CallJoin (default 0 (_thread (sess w))) timeout) l ->
     exists x x' : Ext,
       Thread_is_alive C (default 0 (_thread (sess w))) x = (Ok true, x')).
Proof.
  unfold disconnect. run.
  repeat step; rewrite <- ?app_assoc; cbn;
    first [ eexists; split; [reflexivity|]
          | exists []; split; [rewrite ?app_nil_r; reflexivity|] ];
    (split; [eexists; cbn; reflexivity|]);
    cbn; intros H;
    repeat match goal with
      | H : _ \/ _ |- _ => destruct H
      | H : False |- _ => destruct H
      end; try discriminate; eauto.
Qed.



(** X13. [disconnect] calls [close] on the session's own socket if it
    has one, then [is_alive] and [join] on the session's own worker if it
    has one, in that order and each at most once; [join] gets the
    caller's timeout and is called only after [is_alive] returned true;
    nothing else is called. *)
Theorem disconnect_calls_in_order (timeout : Q) w :
  exists l : list Call,
    new_calls (disconnect C timeout) w =
      match _ws (sess w) with Some h => [CallClose h] | None => [] end ++ l /\
    l `prefix_of`
      match _thread (sess w) with
      | Some t => [CallIsAlive t; CallJoin t timeout]
      | None => []
      end /\
    (forall t, _thread (sess w) = Some t ->
       In (CallJoin t timeout) l ->
       exists x x' : Ext, Thread_is_alive C t x = (Ok true, x')).
Proof.
  destruct (disconnect_trace timeout w) as (l & Hl & Hpre & Hjoin).
  exists l. unfold new_calls. rewrite Hl, drop_app_length.
  split; [reflexivity|]. split; [exact Hpre|].
  intros t Ht. rewrite Ht in Hjoin. exact Hjoin.
Qed.

(** X14. [disconnect] tells nobody: it calls no user callback (the
    [on_close] callback is left to the close event) and writes no log
    record, and it leaves the callbacks, the token and the logger as
    they were. *)
Theorem disconnect_is_silent (timeout : Q) w :
  Forall (fun c => is_user_call c || is_log c = false)
    (new_calls (disconnect C timeout) w) /\
  (forall k, registered k (sess (snd (disconnect C timeout w))) =
               registered k (sess w)) /\
  access_token (sess (snd (disconnect C timeout w))) = access_token (sess w) /\
  _logger (sess (snd (disconnect C timeout w))) = _logger (sess w).
Proof.
  split.
  - destruct (disconnect_trace timeout w) as (l & Hl & [k Hk] & _).
    unfold new_calls. rewrite Hl, drop_app_length.
    apply Forall_app. split.
    + destruct (_ws (sess w)); repeat constructor.
    + assert (H : Forall (fun c => is_user_call c || is_log c = false) (l ++ k)).
      { rewrite <- Hk. destruct (_thread (sess w)); repeat constructor. }
      apply Forall_app in H. tauto.
  - rewrite disconnect_sess.
    destruct (returns (fst (disconnect C timeout w)));
      repeat split; try reflexivity; intros []; reflexivity.
Qed.

(** X15. Unlike a failure of [close()], a failure of [join] is not
    swallowed, of whatever class: [disconnect] raises it, and the final
    assignment is skipped, so every attribute, [connected] included, is
    what it was. *)
Theorem disconnect_join_failure_propagates (timeout : Q) w (h : WsHandle)
    (t : ThreadHandle) e (x x' x'' : Ext) :
  _ws (sess w) = Some h ->
  WebSocketApp_close C h (ext w) = (Ok tt, x) ->
  _thread (sess w) = Some t ->
  Thread_is_alive C t x = (Ok true, x') ->
  Thread_join C t timeout x' = (Raise e, x'') ->
  disconnect C timeout w =
    (Raise e,
     {| sess := sess w; ext := x'';
        trace := trace w ++ [CallClose h; CallIsAlive t; CallJoin t timeout] |}).
Proof.
  intros Hws Hclose Hth Halive Hjoin. unfold disconnect. run.
  rewrite Hws. cbn. rewrite Hclose. cbn. rewrite Hth. cbn.
  rewrite Halive. cbn. rewrite Hjoin. cbn.
  rewrite <- !app_assoc. reflexivity.
Qed.

(** ** What holds along any run of events *)

(** One event: what it keeps. *)
Lemma run_op_frame (op : Op Ext) w :
  access_token (sess (snd (run_op K C op w))) = access_token (sess w) /\
  _logger (sess (snd (run_op K C op w))) = _logger (sess w) /\
  (is_Some (_ws (sess w)) -> is_Some (_ws (sess (snd (run_op K C op w))))) /\
  (is_Some (_thread (sess w)) ->
   is_Some (_thread (sess (snd (run_op K C op w))))) /\
  ((is_Some (_thread (sess w)) -> is_Some (_ws (sess w))) ->
   is_Some (_thread (sess (snd (run_op K C op w)))) ->
   is_Some (_ws (sess (snd (run_op K C op w))))) /\
  (is_connect op = false ->
   forall k, registered k (sess (snd (run_op K C op w))) = registered k (sess w)).
Proof.
  destruct op as [m e c o kw|timeout| | | |].
  - cbn. unfold connect. run. rewrite (build_ws_url_frame w) by reflexivity.
    destruct (_build_ws_url K C w) as [[u|e'] w1]; cbn; repeat step;
      repeat split; eauto; discriminate.
  - cbn. rewrite disconnect_sess.
    destruct (returns (fst (disconnect C timeout w))); cbn;
      repeat split; eauto; intros _ []; reflexivity.
  - rewrite (handler_sess OpOpen OnOpen [] w eq_refl). cbn.
    repeat split; eauto; intros _ []; reflexivity.
  - rewrite (handler_sess (OpMessage message) _ _ w eq_refl). cbn.
    repeat split; eauto; intros _ []; reflexivity.
  - rewrite (handler_sess (OpError error) _ _ w eq_refl). cbn.
    repeat split; eauto; intros _ []; reflexivity.
  - rewrite (handler_sess (OpClose status_code reason) _ _ w eq_refl). cbn.
    repeat split; eauto; intros _ []; reflexivity.
Qed.

(** X16. The token and the logger of a session never change: after any
    sequence of [connect], [disconnect] and socket events they are what
    [__init__] stored. *)
Theorem token_and_logger_never_change (ops : list (Op Ext)) w :
  access_token (sess (run_ops K C ops w)) = access_token (sess w) /\
  _logger (sess (run_ops K C ops w)) = _logger (sess w).
Proof.
  revert w. induction ops as [|op ops IH]; intros w; cbn; [auto|].
  destruct (IH (snd (run_op K C op w))) as [Ht Hl].
  destruct (run_op_frame op w) as (Ht' & Hl' & _).
  unfold run_ops in *. rewrite Ht, Hl. auto.
Qed.

(** X17. A handle is never cleared: once the session has a connection
    handle, or a worker handle, it has one after any sequence of
    [connect], [disconnect] and socket events. *)
Theorem handles_never_cleared (ops : list (Op Ext)) w :
  (is_Some (_ws (sess w)) -> is_Some (_ws (sess (run_ops K C ops w)))) /\
  (is_Some (_thread (sess w)) -> is_Some (_thread (sess (run_ops K C ops w)))).
Proof.
  revert w. induction ops as [|op ops IH]; intros w; cbn; [auto|].
  destruct (IH (snd (run_op K C op w))) as [Hws Hth].
  destruct (run_op_frame op w) as (_ & _ & Hws' & Hth' & _).
  unfold run_ops in *. auto.
Qed.

(** The worker handle comes with a connection handle, along any run. *)
Lemma worker_implies_socket_from (ops : list (Op Ext)) w :
  (is_Some (_thread (sess w)) -> is_Some (_ws (sess w))) ->
  is_Some (_thread (sess (run_ops K C ops w))) ->
  is_Some (_ws (sess (run_ops K C ops w))).
Proof.
  revert w. induction ops as [|op ops IH]; intros w Hinv; cbn; [exact Hinv|].
  apply (IH (snd (run_op K C op w))).
  destruct (run_op_frame op w) as (_ & _ & _ & _ & H & _). exact (H Hinv).
Qed.

(** X18. In every state a session can reach from [__init__], a worker
    handle is stored only if a connection handle is: [connect] stores the
    socket before it creates the thread, and nothing clears either. *)
Theorem worker_implies_socket (ops : list (Op Ext)) (token : string)
    (logger : option Logger) (x : Ext) (tr : list Call) :
  is_Some (_thread (sess (run_ops K C ops
             {| sess := __init__ token logger; ext := x; trace := tr |}))) ->
  is_Some (_ws (sess (run_ops K C ops
             {| sess := __init__ token logger; ext := x; trace := tr |}))).
Proof.
  apply worker_implies_socket_from. cbn. intros [t Ht]. discriminate.
Qed.

(** X19. Only [connect] changes the callbacks: after any sequence of
    [disconnect] and socket events, with no [connect] among them, the
    four callbacks are the ones registered before. *)
Theorem callbacks_change_only_in_connect (ops : list (Op Ext)) w
    (k : CallbackKind) :
  forallb (fun op => negb (is_connect op)) ops = true ->
  registered k (sess (run_ops K C ops w)) = registered k (sess w).
Proof.
  revert w. induction ops as [|op ops IH]; intros w Hops; cbn; [reflexivity|].
  cbn in Hops. apply andb_true_iff in Hops. destruct Hops as [Hop Hops].
  apply negb_true_iff in Hop.
  destruct (run_op_frame op w) as (_ & _ & _ & _ & _ & Hk).
  unfold run_ops in *. rewrite (IH _ Hops). apply Hk. exact Hop.
Qed.

(** ** Log records *)

(** The log records of one event. *)
Lemma run_op_logs (op : Op Ext) w (c : Call) :
  In c (new_calls (run_op K C op) w) ->
  is_log c = true ->
  exists (lvl : LogLevel) (fmt : string) (args : list PyVal),
    c = CallLog (_logger (sess w)) lvl fmt args /\
    (lvl = WARNING ->
     exists (k : CallbackKind) (fargs : list PyVal) (f : Callback Ext) e,
       forwarded op = Some (k, fargs) /\
       registered k (sess w) = Some f /\
       fst (f fargs (connected_during op (sess w)) (ext w)) = Some e /\
       except_RuntimeError_OSError e = true /\
       fmt = callback_error_format k /\ args = [VExn e]).
Proof.
  destruct op as [m e c' o kw|timeout| | | |]; cbn.
  - destruct (build_ws_url_trace w) as (l & Hl & [k Hk] & _).
    assert (Hnot : In c l -> is_log c = false).
    { intros Hin.
      assert (Hin' : In c (l ++ k)) by (apply in_app_iff; auto).
      rewrite <- Hk in Hin'. cbn in Hin'.
      repeat destruct Hin' as [<-|Hin']; try reflexivity. destruct Hin'. }
    unfold new_calls, connect. run.
    rewrite (build_ws_url_frame w) by reflexivity.
    destruct (_build_ws_url K C w) as [[u|e'] w1]; cbn in *; rewrite Hl;
      repeat step; rewrite <- ?app_assoc, drop_app_length;
      rewrite ?in_app_iff; cbn; intros H Hlog;
      repeat match goal with
        | H : _ \/ _ |- _ => destruct H
        | H : False |- _ => destruct H
        | H : In c l |- _ => rewrite (Hnot H) in Hlog
        end; subst; try discriminate;
      do 3 eexists; (split; [reflexivity|]); discriminate.
  - destruct (disconnect_trace timeout w) as (l & Hl & [k Hk] & _).
    unfold new_calls. rewrite Hl, drop_app_length, in_app_iff.
    intros [Hin|Hin] Hlog; exfalso.
    + destruct (_ws (sess w)); cbn in Hin; [|destruct Hin].
      destruct Hin as [<-|[]]. discriminate.
    + assert (Hin' : In c (l ++ k)) by (apply in_app_iff; auto).
      rewrite <- Hk in Hin'.
      destruct (_thread (sess w)); cbn in Hin';
        repeat destruct Hin' as [<-|Hin']; try discriminate; destruct Hin'.
  - unfold new_calls, _on_open. run.
    repeat step; rewrite <- ?app_assoc, drop_app_length; cbn;
      intros H Hlog;
      repeat match goal with
        | H : _ \/ _ |- _ => destruct H
        | H : False |- _ => destruct H
        end; subst; try discriminate;
      do 3 eexists; (split; [reflexivity|]); intros Hw; try discriminate;
      do 4 eexists; repeat split; try reflexivity; try eassumption;
      match goal with H : ?f _ _ _ = _ |- context [?f _ _ _] => rewrite H end;
      reflexivity.
  - unfold new_calls, _on_message. run.
    repeat step; rewrite <- ?app_assoc, ?drop_app_length, ?drop_all; cbn;
      intros H Hlog;
      repeat match goal with
        | H : _ \/ _ |- _ => destruct H
        | H : False |- _ => destruct H
        end; subst; try discriminate;
      do 3 eexists; (split; [reflexivity|]); intros Hw; try discriminate;
      do 4 eexists; repeat split; try reflexivity; try eassumption;
      match goal with H : ?f _ _ _ = _ |- context [?f _ _ _] => rewrite H end;
      reflexivity.
  - unfold new_calls, _on_error. run.
    repeat step; rewrite <- ?app_assoc, drop_app_length; cbn;
      intros H Hlog;
      repeat match goal with
        | H : _ \/ _ |- _ => destruct H
        | H : False |- _ => destruct H
        end; subst; try discriminate;
      do 3 eexists; (split; [reflexivity|]); intros Hw; try discriminate;
      do 4 eexists; repeat split; try reflexivity; try eassumption;
      match goal with H : ?f _ _ _ = _ |- context [?f _ _ _] => rewrite H end;
      reflexivity.
  - unfold new_calls, _on_close. run.
    repeat step; rewrite <- ?app_assoc, drop_app_length; cbn;
      intros H Hlog;
      repeat match goal with
        | H : _ \/ _ |- _ => destruct H
        | H : False |- _ => destruct H
        end; subst; try discriminate;
      do 3 eexists; (split; [reflexivity|]); intros Hw; try discriminate;
      do 4 eexists; repeat split; try reflexivity; try eassumption;
      match goal with H : ?f _ _ _ = _ |- context [?f _ _ _] => rewrite H end;
      reflexivity.
Qed.

(** X20. Every log record the client writes goes to the logger stored at
    construction (the injected one, or the module logger). *)
Theorem logs_go_to_session_logger (op : Op Ext) w (lg : Logger)
    (lvl : LogLevel) (fmt : string) (args : list PyVal) :
  In (CallLog lg lvl fmt args) (new_calls (run_op K C op) w) ->
  lg = _logger (sess w).
Proof.
  intros Hin.
  destruct (run_op_logs op w _ Hin eq_refl) as (lvl' & fmt' & args' & Heq & _).
  injection Heq as -> _ _ _. reflexivity.
Qed.

(** X21. A warning is logged for one reason only: a registered callback,
    called by its forwarding handler, raised an exception the clause
    catches; the warning carries that exception under the format of that
    callback.  [connect] and [disconnect] log no warning. *)
Theorem warning_only_for_caught_callback_failure (op : Op Ext) w
    (lg : Logger) (fmt : string) (args : list PyVal) :
  In (CallLog lg WARNING fmt args) (new_calls (run_op K C op) w) ->
  exists (k : CallbackKind) (fargs : list PyVal) (f : Callback Ext) e,
    forwarded op = Some (k, fargs) /\
    registered k (sess w) = Some f /\
    fst (f fargs (connected_during op (sess w)) (ext w)) = Some e /\
    except_RuntimeError_OSError e = true /\
    fmt = callback_error_format k /\ args = [VExn e].
Proof.
  intros Hin.
  destruct (run_op_logs op w _ Hin eq_refl) as (lvl' & fmt' & args' & Heq & Hw).
  injection Heq as _ <- <- <-. apply Hw. reflexivity.
Qed.

(** ** How the operations compose *)

(** X22. [connected] is true only after an open event: if it is true
    after a sequence of [connect], [disconnect] and socket events, it
    was true before or an open event is among them; on a session built
    by [__init__] an open event is among them. *)
Theorem connected_needs_open_event (ops : list (Op Ext)) :
  (forall w,
     connected (sess (run_ops K C ops w)) = true ->
     connected (sess w) = true \/ In OpOpen ops) /\
  (forall (token : string) (logger : option Logger) (x : Ext) (tr : list Call),
     connected (sess (run_ops K C ops
                  {| sess := __init__ token logger; ext := x; trace := tr |})) =
       true ->
     In OpOpen ops).
Proof.
  assert (H : forall w,
             connected (sess (run_ops K C ops w)) = true ->
             connected (sess w) = true \/ In OpOpen ops).
  { induction ops as [|op ops IH]; intros w Hc; cbn in *; [auto|].
    destruct (IH _ Hc) as [Hstep|Hin]; [|auto].
    rewrite run_op_connected in Hstep.
    destruct op; auto; try discriminate.
    destruct (returns (fst (disconnect C timeout w))); [discriminate | auto]. }
  split; [exact H|].
  intros token logger x tr Hc. destruct (H _ Hc) as [Hinit|Hin]; [|exact Hin].
  discriminate Hinit.
Qed.

(** X23. Since the handle is kept, a [disconnect] after a [disconnect]
    calls [close()] on the same socket once more, whether the first one
    returned or raised. *)
Theorem disconnect_again_closes_again (timeout timeout' : Q) w (h : WsHandle) :
  _ws (sess w) = Some h ->
  exists l : list Call,
    new_calls (disconnect C timeout') (snd (disconnect C timeout w)) =
      CallClose h :: l.
Proof.
  intros Hws.
  assert (Hws' : _ws (sess (snd (disconnect C timeout w))) = Some h).
  { rewrite disconnect_sess.
    destruct (returns (fst (disconnect C timeout w))); exact Hws. }
  destruct (disconnect_trace timeout' (snd (disconnect C timeout w)))
    as (l & Hl & _).
  exists l. unfold new_calls. rewrite Hl, drop_app_length, Hws'. reflexivity.
Qed.

(** X24. When the URL cannot be built, [connect] does nothing beyond
    storing the callbacks and the helper calls [_build_ws_url] got to: no
    log record, no import, no socket, no thread. *)
Theorem connect_url_failure_calls_nothing_more
    (on_message on_error on_close on_open : option (Callback Ext))
    (kw : option Kwargs) w e :
  fst (_build_ws_url K C w) = Raise e ->
  new_calls (connect K C on_message on_error on_close on_open kw) w =
    new_calls (_build_ws_url K C) w /\
  ext (snd (connect K C on_message on_error on_close on_open kw w)) =
    ext (snd (_build_ws_url K C w)).
Proof.
  intros Hurl. unfold new_calls, connect. run.
  rewrite (build_ws_url_frame w) by reflexivity.
  destruct (_build_ws_url K C w) as [[u|e'] w1]; cbn in *; [discriminate|].
  split; reflexivity.
Qed.

End Properties.

(** * The client on the closed instance *)

Import Fixture.

(** C1 at an EU token: the URL contains the EU base. *)
Lemma connect_url_region_witness :
  exists base : string,
    format_fields "wss://ws-{}.example.test" ["eu"] = Ok base /\
    contains
      "wss://ws-eu.example.test/websocket?accessToken=abc.def.ghi&timestamp=0"
      base.
Proof.
  apply (connect_url_region consts collaborators (fresh "abc.def.ghi:EU")
           "abc.def.ghi" "0" "https://api-eu.example.test"
           quiet (tick quiet) (tick quiet)
           "wss://ws-eu.example.test/websocket?accessToken=abc.def.ghi&timestamp=0");
    vm_compute; reflexivity.
Defined.

(** C2 at a US token: the helpers return, so the URL is built. *)
Lemma connect_url_is_base_then_path_witness :
  fst (_build_ws_url consts collaborators (fresh token)) =
    Ok ("wss://ws-us.example.test" +:+
        "/websocket?accessToken=abc.def.ghi&timestamp=0").
Proof.
  apply (proj1 (connect_url_is_base_then_path consts collaborators (fresh token))).
  exists "abc.def.ghi", "0", "https://api-us.example.test",
    quiet, (tick quiet), (tick quiet),
    "wss://ws-us.example.test", "/websocket?accessToken={}&timestamp={}",
    "/websocket?accessToken=abc.def.ghi&timestamp=0".
  vm_compute. repeat split; reflexivity.
Defined.

(** C3 at an [on_message] callback that raises [ValueError]: the handler
    does not isolate it.  The exception leaves the message handler and
    no warning is logged, though the clause is there so that user
    callback errors do not kill the socket. *)
Lemma forwarding_lets_ValueError_through :
  registered OnMessage
    (sess (opened token (collect_and_raise (boom ValueError)) quiet)) =
    Some (collect_and_raise (boom ValueError)) /\
  fst (run_op consts collaborators (OpMessage "hi")
         (opened token (collect_and_raise (boom ValueError)) quiet)) =
    Raise (boom ValueError) /\
  List.filter is_warning
    (new_calls (run_op consts collaborators (OpMessage "hi"))
       (opened token (collect_and_raise (boom ValueError)) quiet)) = [].
Proof. vm_compute. repeat split; reflexivity. Qed.

(** X25 at a callback raising [ConnectionError], a subclass of
    [OSError]. *)
Lemma forwarding_isolates_caught_errors_witness :
  fst (run_op consts collaborators (OpMessage "hi")
         (opened token (collect_and_raise (boom ConnectionError)) quiet)) =
    Ok tt /\
  In (CallUser OnMessage [VStr "again"])
    (new_calls (_on_message "again")
       (snd (run_op consts collaborators (OpMessage "hi")
               (opened token (collect_and_raise (boom ConnectionError)) quiet)))).
Proof.
  destruct (forwarding_isolates_caught_errors consts collaborators
              (OpMessage "hi") OnMessage [VStr "hi"]
              (collect_and_raise (boom ConnectionError))
              (opened token (collect_and_raise (boom ConnectionError)) quiet)
              (boom ConnectionError)
              (deliver [VStr "hi"] (ext (opened token (collect_and_raise (boom ConnectionError)) quiet))))
    as (Hret & _ & _ & _ & _ & Hnext); try (vm_compute; reflexivity).
  split; [exact Hret|]. apply Hnext. reflexivity.
Defined.

(** C4 does not hold of [disconnect]: on an opened session it turns
    [connected] from true to false itself. *)
Lemma disconnect_changes_connected :
  connected (sess (opened token collect quiet)) = true /\
  fst (disconnect collaborators default_timeout (opened token collect quiet)) =
    Ok tt /\
  connected
    (sess (snd (disconnect collaborators default_timeout
                  (opened token collect quiet)))) = false.
Proof. vm_compute. repeat split; reflexivity. Qed.

(** C4 at the open event on a new session. *)
Lemma connected_changes_only_in_open_close_disconnect_witness :
  (OpOpen = OpOpen (Ext := Outside) /\
   connected (sess (snd (run_op consts collaborators OpOpen (fresh token)))) =
     true) \/
  (((exists status_code reason,
       OpOpen (Ext := Outside) = OpClose status_code reason) \/
    (exists timeout, OpOpen (Ext := Outside) = OpDisconnect timeout)) /\
   connected (sess (snd (run_op consts collaborators OpOpen (fresh token)))) =
     false).
Proof.
  apply (proj1 (connected_changes_only_in_open_close_disconnect
                  consts collaborators) OpOpen (fresh token)).
  vm_compute. discriminate.
Defined.

(** C5 at a [close()] that raises [ValueError]: the close is not
    best-effort.  The exception leaves [disconnect], which stops there:
    no [join], and [connected] stays true. *)
Lemma disconnect_lets_ValueError_through :
  _ws (sess (opened token collect (stubborn (boom ValueError)))) = Some 1 /\
  fst (disconnect collaborators default_timeout
         (opened token collect (stubborn (boom ValueError)))) =
    Raise (boom ValueError) /\
  new_calls (disconnect collaborators default_timeout)
    (opened token collect (stubborn (boom ValueError))) = [CallClose 1] /\
  connected
    (sess (snd (disconnect collaborators default_timeout
                  (opened token collect (stubborn (boom ValueError)))))) = true.
Proof. vm_compute. repeat split; reflexivity. Qed.

(** X26 at a [close()] raising [OSError] with a live worker that
    outlives the [join]. *)
Lemma disconnect_swallows_close_error_witness :
  new_calls (disconnect collaborators default_timeout)
    (opened token collect (stubborn (boom OSError))) =
    [CallClose 1; CallIsAlive 2; CallJoin 2 default_timeout] /\
  fst (disconnect collaborators default_timeout
         (opened token collect (stubborn (boom OSError)))) = Ok tt /\
  connected
    (sess (snd (disconnect collaborators default_timeout
                  (opened token collect (stubborn (boom OSError)))))) = false.
Proof.
  pose proof (disconnect_swallows_close_error collaborators default_timeout
                (opened token collect (stubborn (boom OSError))) 1
                (boom OSError)
                (ext (opened token collect (stubborn (boom OSError))))
                eq_refl eq_refl eq_refl) as H.
  change (_thread (sess (opened token collect (stubborn (boom OSError)))))
    with (Some 2) in H.
  specialize (H true (ext (opened token collect (stubborn (boom OSError))))
                eq_refl (Ok tt)
                (ext (opened token collect (stubborn (boom OSError))))
                eq_refl).
  unfold new_calls. rewrite H. cbn. rewrite drop_app_length.
  repeat split; reflexivity.
Defined.

(** C6 at a session whose [close()] fails and whose worker does not stop
    within the timeout. *)
Lemma connected_false_after_init_and_disconnect_witness :
  connected
    (sess (snd (disconnect collaborators default_timeout
                  (opened token collect (stubborn (boom OSError)))))) = false.
Proof.
  apply (proj2 (connected_false_after_init_and_disconnect collaborators)).
  vm_compute. reflexivity.
Defined.



(** C9 does not hold as stated: after [connect], the open event and a
    [disconnect] that returns, the connection handle is still there. *)
Lemma disconnect_leaves_handle :
  fst (disconnect collaborators default_timeout (opened token collect quiet)) =
    Ok tt /\
  _ws (sess (snd (disconnect collaborators default_timeout
                    (opened token collect quiet)))) = Some 1 /\
  _ws (sess (snd (disconnect collaborators default_timeout
                    (opened token collect quiet)))) <>
    _ws (__init__ (Ext := Outside) token None).
Proof. vm_compute. repeat split; try reflexivity. discriminate. Qed.

(** C10 at the refused empty token: the new callback is stored, no
    socket is created. *)
Lemma connect_not_atomic_on_url_failure_witness :
  fst (connect consts collaborators (Some collect) None None None None
         (fresh "")) =
    Raise {| exc_class := ValueError; exc_msg := "empty token" |} /\
  _ws (sess (snd (connect consts collaborators (Some collect) None None None
                    None (fresh "")))) = None.
Proof.
  destruct (connect_not_atomic_on_url_failure consts collaborators
              (Some collect) None None None None (fresh "")
              {| exc_class := ValueError; exc_msg := "empty token" |})
    as (Hraise & _ & _ & _ & _ & Hws & _ & _); [vm_compute; reflexivity|].
  split; [exact Hraise | exact Hws].
Defined.

(** X1 at the close event [(1000, "bye")] with an [on_close] callback. *)
Lemma handler_forwards_exactly_once_witness :
  List.filter is_user_call
    (new_calls (run_op consts collaborators (OpClose (Some 1000%Z) (Some "bye")))
       (listening quiet)) =
    [CallUser OnClose [VInt 1000; VStr "bye"]].
Proof.
  pose proof (handler_forwards_exactly_once consts collaborators
                (OpClose (Some 1000%Z) (Some "bye")) OnClose
                [VInt 1000; VStr "bye"] (listening quiet) eq_refl) as H.
  change (registered OnClose (sess (listening quiet))) with (Some collect) in H.
  exact (proj1 H).
Defined.

(** X2 at the error event. *)
Lemma handler_only_logs_and_forwards_witness :
  sess (snd (run_op consts collaborators (OpError (boom OSError))
               (listening quiet))) =
    set_connected (_connected (sess (listening quiet))) (sess (listening quiet)).
Proof.
  exact (proj2 (handler_only_logs_and_forwards consts collaborators
                  (OpError (boom OSError)) OnError [VExn (boom OSError)]
                  (listening quiet) eq_refl)).
Defined.

(** X3 at two messages and a callback that raises [ValueError] on each. *)
Lemma messages_forwarded_in_order_witness :
  List.filter is_user_call
    (drop (length (trace (opened token (collect_and_raise (boom ValueError)) quiet)))
       (trace (run_ops consts collaborators (map OpMessage ["a"; "b"])
                 (opened token (collect_and_raise (boom ValueError)) quiet)))) =
    [CallUser OnMessage [VStr "a"]; CallUser OnMessage [VStr "b"]].
Proof.
  apply (messages_forwarded_in_order consts collaborators ["a"; "b"]
           (collect_and_raise (boom ValueError))
           (opened token (collect_and_raise (boom ValueError)) quiet)).
  vm_compute. reflexivity.
Defined.

(** X5 at the constants without the login template. *)
Lemma build_ws_url_missing_login_template_witness :
  fst (_build_ws_url no_login collaborators (fresh token)) =
    Raise {| exc_class := KeyError; exc_msg := "WS_LOGIN" |}.
Proof.
  apply (build_ws_url_missing_login_template no_login collaborators
           (fresh token) "abc.def.ghi" "0" "https://api-us.example.test"
           quiet (tick quiet) (tick quiet) "wss://ws-us.example.test");
    vm_compute; reflexivity.
Defined.

(** X6 at a new session and collaborators that all return. *)
Lemma connect_starts_worker_witness :
  fst (connect consts collaborators (Some collect) None None None None
         (fresh token)) = Ok tt /\
  _ws (sess (snd (connect consts collaborators (Some collect) None None None
                    None (fresh token)))) = Some 1 /\
  _thread (sess (snd (connect consts collaborators (Some collect) None None
                        None None (fresh token)))) = Some 2.
Proof.
  destruct (connect_starts_worker consts collaborators (Some collect) None None
              None None (fresh token) us_url
              (tick quiet) (tick (tick quiet)) (tick (tick (tick quiet)))
              (set_alive true (tick (tick (tick quiet)))) 1 2)
    as (Hret & Hws & Hth & _); try (vm_compute; reflexivity).
  repeat split; assumption.
Defined.

(** X7 at an installation without the [websocket] package. *)
Lemma connect_import_failure_witness :
  fst (connect consts (failing (Some (boom ImportError)) None None)
         (Some collect) None None None None (fresh token)) =
    Raise (boom ImportError) /\
  _ws (sess (snd (connect consts (failing (Some (boom ImportError)) None None)
                    (Some collect) None None None None (fresh token)))) = None.
Proof.
  destruct (connect_import_failure consts
              (failing (Some (boom ImportError)) None None)
              (Some collect) None None None None (fresh token) us_url
              (boom ImportError) (tick quiet))
    as (Hret & Hws & _); try (vm_compute; reflexivity).
  split; assumption.
Defined.

(** X8 at a thread that cannot be started. *)
Lemma connect_start_failure_witness :
  fst (connect consts (failing None (Some (boom RuntimeError)) None)
         (Some collect) None None None None (fresh token)) =
    Raise (boom RuntimeError) /\
  _ws (sess (snd (connect consts (failing None (Some (boom RuntimeError)) None)
                    (Some collect) None None None None (fresh token)))) =
    Some 1.
Proof.
  destruct (connect_start_failure consts
              (failing None (Some (boom RuntimeError)) None)
              (Some collect) None None None None (fresh token) us_url
              (boom RuntimeError)
              (tick quiet) (tick (tick quiet)) (tick (tick (tick quiet)))
              (tick (tick (tick quiet))) 1 2)
    as (Hret & Hws & _); try (vm_compute; reflexivity).
  split; assumption.
Defined.

(** X10 at a session already connected and opened against a new one,
    from the same outside. *)
Lemma connect_ignores_connection_state_witness :
  fst (connect consts collaborators None None None None None
         {| sess := sess (opened token collect quiet);
            ext := quiet; trace := [] |}) =
  fst (connect consts collaborators None None None None None (fresh token)).
Proof.
  exact (proj1 (connect_ignores_connection_state consts collaborators
                  None None None None None (fresh token)
                  (sess (opened token collect quiet)) eq_refl eq_refl)).
Defined.

(** X11 at the thread of the first [connect] of a session. *)
Lemma connect_thread_is_daemon_on_new_socket_witness :
  _ws (sess (snd (connect consts collaborators None None None None None
                    (fresh token)))) = Some 1.
Proof.
  destruct (connect_thread_is_daemon_on_new_socket consts collaborators
              None None None None None (fresh token) 1 [] true)
    as (_ & _ & Hws & _); [vm_compute; auto 10 | exact Hws].
Defined.

(** X12 at an installation without the [websocket] package: the URL is
    in the log all the same. *)
Lemma connect_logs_url_witness :
  exists rest : list Call,
    new_calls (connect consts (failing (Some (boom ImportError)) None None)
                 None None None None None) (fresh token) =
      [CallCleanToken token; CallTimestamp; CallParseToken token;
       CallLog ModuleLogger DEBUG "Connecting WebSocket to %s" [VStr us_url]]
      ++ rest.
Proof.
  apply (connect_logs_url consts (failing (Some (boom ImportError)) None None)
           None None None None None (fresh token) us_url).
  vm_compute. reflexivity.
Defined.

(** X15 at a [join] that raises [RuntimeError] on a live worker. *)
Lemma disconnect_join_failure_propagates_witness :
  fst (disconnect (failing None None (Some (boom RuntimeError))) default_timeout
         (opened token collect quiet)) = Raise (boom RuntimeError) /\
  connected
    (sess (snd (disconnect (failing None None (Some (boom RuntimeError)))
                  default_timeout (opened token collect quiet)))) = true.
Proof.
  rewrite (disconnect_join_failure_propagates
             (failing None None (Some (boom RuntimeError))) default_timeout
             (opened token collect quiet) 1 2 (boom RuntimeError)
             (ext (opened token collect quiet))
             (ext (opened token collect quiet))
             (ext (opened token collect quiet)));
    try (vm_compute; reflexivity).
  split; reflexivity.
Defined.

(** X17 at a disconnect and a close event on an opened session. *)
Lemma handles_never_cleared_witness :
  is_Some (_ws (sess (run_ops consts collaborators
                        [OpDisconnect default_timeout; OpClose None None]
                        (opened token collect quiet)))).
Proof.
  apply (proj1 (handles_never_cleared consts collaborators
                  [OpDisconnect default_timeout; OpClose None None]
                  (opened token collect quiet))).
  exists 1. vm_compute. reflexivity.
Defined.

(** X18 at a session connected once. *)
Lemma worker_implies_socket_witness :
  is_Some (_ws (sess (run_ops consts collaborators
                        [OpConnect None None None None None; OpOpen]
                        {| sess := __init__ token None; ext := quiet;
                           trace := [] |}))).
Proof.
  apply (worker_implies_socket consts collaborators
           [OpConnect None None None None None; OpOpen] token None quiet []).
  exists 2. vm_compute. reflexivity.
Defined.

(** X19 at an open, a message, a disconnect and a close. *)
Lemma callbacks_change_only_in_connect_witness :
  registered OnMessage
    (sess (run_ops consts collaborators
             [OpOpen; OpMessage "m"; OpDisconnect default_timeout;
              OpClose None None]
             (listening quiet))) =
  registered OnMessage (sess (listening quiet)).
Proof.
  apply (callbacks_change_only_in_connect consts collaborators
           [OpOpen; OpMessage "m"; OpDisconnect default_timeout;
            OpClose None None]
           (listening quiet) OnMessage).
  reflexivity.
Defined.

(** X20 at the open event on a session with an injected logger. *)
Lemma logs_go_to_session_logger_witness :
  InjectedLogger 7 =
    _logger (sess {| sess := __init__ (Ext := Outside) token
                               (Some (InjectedLogger 7));
                     ext := quiet; trace := [] |}).
Proof.
  apply (logs_go_to_session_logger consts collaborators OpOpen
           {| sess := __init__ token (Some (InjectedLogger 7));
              ext := quiet; trace := [] |}
           (InjectedLogger 7) DEBUG "WebSocket opened" []).
  vm_compute. auto.
Defined.

(** X21 at a message callback raising [ConnectionError]. *)
Lemma warning_only_for_caught_callback_failure_witness :
  exists (k : CallbackKind) (fargs : list PyVal) (f : Callback Outside)
         (e : Exn),
    forwarded (OpMessage (Ext := Outside) "hi") = Some (k, fargs) /\
    registered k
      (sess (opened token (collect_and_raise (boom ConnectionError)) quiet)) =
      Some f /\
    fst (f fargs
           (connected_during (OpMessage "hi")
              (sess (opened token (collect_and_raise (boom ConnectionError))
                       quiet)))
           (ext (opened token (collect_and_raise (boom ConnectionError)) quiet))) =
      Some e /\
    except_RuntimeError_OSError e = true /\
    "on_message callback error: %s" = callback_error_format k /\
    [VExn (boom ConnectionError)] = [VExn e].
Proof.
  apply (warning_only_for_caught_callback_failure consts collaborators
           (OpMessage "hi")
           (opened token (collect_and_raise (boom ConnectionError)) quiet)
           ModuleLogger "on_message callback error: %s"
           [VExn (boom ConnectionError)]).
  vm_compute. auto.
Defined.

(** X22 at a connected and opened session. *)
Lemma connected_needs_open_event_witness :
  In (OpOpen (Ext := Outside))
    [OpConnect None None None None None; OpOpen; OpMessage "m"].
Proof.
  apply (proj2 (connected_needs_open_event consts collaborators
                  [OpConnect None None None None None; OpOpen; OpMessage "m"])
           token None quiet []).
  vm_compute. reflexivity.
Defined.

(** X23 at an opened session. *)
Lemma disconnect_again_closes_again_witness :
  exists l : list Call,
    new_calls (disconnect collaborators default_timeout)
      (snd (disconnect collaborators default_timeout
              (opened token collect quiet))) = CallClose 1 :: l.
Proof.
  apply (disconnect_again_closes_again collaborators default_timeout
           default_timeout (opened token collect quiet) 1).
  vm_compute. reflexivity.
Defined.

(** X24 at the refused empty token. *)
Lemma connect_url_failure_calls_nothing_more_witness :
  new_calls (connect consts collaborators (Some collect) None None None None)
    (fresh "") =
  new_calls (_build_ws_url consts collaborators) (fresh "").
Proof.
  exact (proj1 (connect_url_failure_calls_nothing_more consts collaborators
                  (Some collect) None None None None (fresh "")
                  {| exc_class := ValueError; exc_msg := "empty token" |}
                  eq_refl)).
Defined.

(** X4 at a new session: the three helpers are called, in order. *)
Lemma build_ws_url_calls_helpers_in_order_witness :
  new_calls (_build_ws_url consts collaborators) (fresh token) =
    [CallCleanToken token; CallTimestamp; CallParseToken token].
Proof.
  apply (proj1 (proj2 (build_ws_url_calls_helpers_in_order consts collaborators
                         (fresh token)))).
  vm_compute. reflexivity.
Defined.

(** X13 at an opened session with a live worker: the [join] follows an
    [is_alive] that returned true. *)
Lemma disconnect_calls_in_order_witness :
  exists x x' : Outside, Thread_is_alive collaborators 2 x = (Ok true, x').
Proof.
  destruct (disconnect_calls_in_order collaborators default_timeout
              (opened token collect quiet)) as (l & Hl & _ & Hjoin).
  apply (Hjoin 2 eq_refl).
  vm_compute in Hl. injection Hl as <-. cbn. auto.
Defined.
